(** * Lot workflow and ephemeral access engine (IRFIS backend)

    A shallow embedding of the Express route handlers that make up the
    engine:

    - [routes/ephemeralQr.ts]  : POST /:lotId/generate-qr, GET /:lotId
    - [routes/lotRoutes.ts]    : PUT /:id/status, GET /, GET /:id,
                                 GET /qr/:id
    - [routes/lotWorkflows.ts] : POST /:lotId/install, /:lotId/inspection,
                                 /:lotId/replacement-request
    - [routes/users.ts]        : GET /:id, DELETE /:id
    - [routes/upload.ts]       : POST /inspection-photos
    - [middleware/auth.ts]     : authorize
    - [models/Lot.ts], [models/User.ts], [models/ReplacementRequest.ts]

    Conventions of the model:

    - A date is its millisecond value, which is what JavaScript compares.
    - The [lots] and [users] collections are finite maps keyed by the
      unique [id]; the replacement requests are a list in insertion order.
    - A handler is a computation in a small state-and-exception monad: the
      state is the database, an exception is a rejected [await], and the
      [try]/[catch] of every handler turns it into the 500 response.
    - Everything a handler cannot decide itself is read from an explicit
      environment: the clock readings, the uuid drawn, whether an awaited
      call rejects, and the library functions that print a date, a payload
      and a QR bitmap.
    - A field of a request body is absent or a string (a list of strings
      for [photos]).  A string is the sequence of the bytes of its UTF-8
      encoding: [trim] strips the white space of ECMAScript in that
      encoding, and [toUpperCase] is the upper-casing of JavaScript on
      strings of ASCII characters.
    - A request carries no bearer token, or the user that [authenticate]
      resolved from its token; a request that [authenticate] refuses for
      another reason is outside this model.
    - Mongoose's [save] is modelled with what the schemas declare:
      [timestamps: true] stamps [updatedAt], a new replacement request is
      validated against its [enum] and [required] constraints, and the
      unique index on its [id] refuses a duplicate.
    - Handlers are run one after another; the interleaving of two requests
      at an [await] is outside this model. *)

From stdpp Require Import gmap strings list pretty.
From Stdlib Require Import ZArith Lia Ascii.

#[local] Set Warnings "-register-all".

Local Open Scope Z_scope.


(** ** Values *)

(** [Schema.Types.Mixed] / [Record<string, any>]: the JSON values that the
    handlers put into metadata. *)
Inductive JValue : Type :=
  | JUndefined
  | JBool (b : bool)
  | JStr (s : string)
  | JArr (l : list JValue)
  | JObj (fields : list (string * JValue)).

Definition Metadata : Type := list (string * JValue).

(** [metadata.key] *)
Fixpoint field (key : string) (m : Metadata) : JValue :=
  match m with
  | [] => JUndefined
  | (k, v) :: rest => if String.eqb k key then v else field key rest
  end.

(** A body field is absent or a string; [x] as a metadata value. *)
Definition jopt (x : option string) : JValue :=
  match x with
  | Some s => JStr s
  | None => JUndefined
  end.

(** [photos || []] as a metadata value. *)
Definition jphotos (photos : option (list string)) : JValue :=
  JArr (map JStr (default [] photos)).

(** JavaScript truthiness of an absent-or-string value: [!x] is true for
    [undefined] and for the empty string. *)
Definition truthy (x : option string) : bool :=
  match x with
  | Some s => negb (String.eqb s "")
  | None => false
  end.

(** Strings are sequences of bytes: the UTF-8 encoding of the JavaScript
    string, which is what a string literal of this file holds.  A string
    of ASCII characters is a string all of whose bytes are below 128. *)
Fixpoint ascii_only (s : string) : bool :=
  match s with
  | EmptyString => true
  | String c rest => (nat_of_ascii c <? 128)%nat && ascii_only rest
  end.

(** [String.prototype.toUpperCase] on a string of ASCII characters, where
    it maps the letters a-z and nothing else; the identifiers the handlers
    upper-case ([LOT] or a role code, followed by digits) are such strings.
    Other bytes are left as they are, which is not what JavaScript does to
    every other character: a statement that depends on the upper-casing of
    an identifier that may hold other characters says [ascii_only]. *)
Definition upper_ascii (c : ascii) : ascii :=
  let n := nat_of_ascii c in
  if ((97 <=? n)%nat && (n <=? 122)%nat)%bool then ascii_of_nat (n - 32) else c.

Fixpoint toUpperCase (s : string) : string :=
  match s with
  | EmptyString => EmptyString
  | String c rest => String (upper_ascii c) (toUpperCase rest)
  end.

(** [String.prototype.trim] strips the white space and the line
    terminators of ECMAScript from both ends: U+0009 to U+000D and U+0020,
    here [is_space]; U+00A0, here [is_space2]; U+1680, U+2000 to U+200A,
    U+2028, U+2029, U+202F, U+205F, U+3000 and U+FEFF, here [is_space3];
    each by its UTF-8 encoding. *)
Definition is_space (c : ascii) : bool :=
  let n := nat_of_ascii c in
  ((n =? 32)%nat || ((9 <=? n)%nat && (n <=? 13)%nat))%bool.

Definition is_space2 (c1 c2 : ascii) : bool :=
  ((nat_of_ascii c1 =? 194)%nat && (nat_of_ascii c2 =? 160)%nat)%bool.

Definition is_space3 (c1 c2 c3 : ascii) : bool :=
  let n1 := nat_of_ascii c1 in
  let n2 := nat_of_ascii c2 in
  let n3 := nat_of_ascii c3 in
  (   ((n1 =? 225) && (n2 =? 154) && (n3 =? 128))                      (* U+1680 *)
   || ((n1 =? 226) && (n2 =? 128) && (128 <=? n3) && (n3 <=? 138))     (* U+2000 to U+200A *)
   || ((n1 =? 226) && (n2 =? 128) && ((n3 =? 168) || (n3 =? 169)))     (* U+2028, U+2029 *)
   || ((n1 =? 226) && (n2 =? 128) && (n3 =? 175))                      (* U+202F *)
   || ((n1 =? 226) && (n2 =? 129) && (n3 =? 159))                      (* U+205F *)
   || ((n1 =? 227) && (n2 =? 128) && (n3 =? 128))                      (* U+3000 *)
   || ((n1 =? 239) && (n2 =? 187) && (n3 =? 191)))%nat%bool.           (* U+FEFF *)

(** Strip the white space in front of [s]. *)
Fixpoint trim_start (s : string) : string :=
  match s with
  | EmptyString => EmptyString
  | String c1 rest1 =>
      if is_space c1 then trim_start rest1
      else match rest1 with
           | EmptyString => s
           | String c2 rest2 =>
               if is_space2 c1 c2 then trim_start rest2
               else match rest2 with
                    | EmptyString => s
                    | String c3 rest3 =>
                        if is_space3 c1 c2 c3 then trim_start rest3 else s
                    end
           end
  end.

(** The same on the reversed string, whose first bytes are the last bytes
    of a character, last byte first. *)
Fixpoint trim_start_rev (s : string) : string :=
  match s with
  | EmptyString => EmptyString
  | String c1 rest1 =>
      if is_space c1 then trim_start_rev rest1
      else match rest1 with
           | EmptyString => s
           | String c2 rest2 =>
               if is_space2 c2 c1 then trim_start_rev rest2
               else match rest2 with
                    | EmptyString => s
                    | String c3 rest3 =>
                        if is_space3 c3 c2 c1 then trim_start_rev rest3 else s
                    end
           end
  end.

Definition trim (s : string) : string :=
  String.rev (trim_start_rev (String.rev (trim_start s))).

(** ** Documents *)

(** [UserRole] of [types/index.ts]. *)
Inductive UserRole : Type := admin | vendor | depot_staff | track_worker | inspector.

Global Instance UserRole_eq_dec : EqDecision UserRole.
Proof. solve_decision. Defined.

Definition role_name (r : UserRole) : string :=
  match r with
  | admin => "admin"
  | vendor => "vendor"
  | depot_staff => "depot-staff"
  | track_worker => "track-worker"
  | inspector => "inspector"
  end.

(** The [status] enum of [lotSchema]. *)
Module LotStatus.
Inductive t : Type := pending | verified | rejected | accepted | held.

Definition name (s : t) : string :=
  match s with
  | pending => "pending"
  | verified => "verified"
  | rejected => "rejected"
  | accepted => "accepted"
  | held => "held"
  end.

(** [['pending','verified','rejected','accepted','held'].includes(status)],
    returning the member found. *)
Definition parse (status : option string) : option t :=
  match status with
  | Some s =>
      if String.eqb s "pending" then Some pending
      else if String.eqb s "verified" then Some verified
      else if String.eqb s "rejected" then Some rejected
      else if String.eqb s "accepted" then Some accepted
      else if String.eqb s "held" then Some held
      else None
  | None => None
  end.

Global Instance eq_dec : EqDecision t.
Proof. solve_decision. Defined.
End LotStatus.

(** The [status] enum of [replacementRequestSchema]. *)
Module RequestStatus.
Inductive t : Type := pending | approved | rejected | completed.
End RequestStatus.

Record AuditEntry : Type := {
  timestamp : Z;
  actorId : string;
  actorName : string;
  action : string;
  details : string;
  metadata : Metadata
}.

Record QrToken : Type := {
  token : string;
  generatedAt : Z;
  expiresAt : Z;
  generatedBy : string
}.

Record Lot : Type := {
  lot_id : string;
  partName : string;
  factoryName : string;
  lotNumber : string;
  supplyDate : Z;
  manufacturingDate : Z;
  warrantyPeriod : string;
  status : LotStatus.t;
  vendorId : string;
  qrCode : option string;
  auditTrail : list AuditEntry;
  qrTokens : list QrToken;
  lot_createdAt : Z;
  lot_updatedAt : Z
}.

Record UserHistoryEntry : Type := {
  h_timestamp : Z;
  h_action : string;
  targetType : string;
  targetId : string;
  h_details : string;
  h_metadata : Metadata
}.

(** A user document as the handlers see it ([select('-password')]). *)
Record User : Type := {
  user_id : string;
  firstName : string;
  lastName : string;
  role : UserRole;
  history : list UserHistoryEntry;
  user_updatedAt : Z
}.

Record ReplacementRequest : Type := {
  req_id : string;
  req_lotId : string;
  requestedBy : string;
  requestedByRole : UserRole;
  reason : string;
  description : string;
  photos : list string;
  priority : string;
  req_status : RequestStatus.t;
  req_createdAt : option Z
}.

(** The database: the [lots] and [users] collections keyed by their unique
    [id], and the [replacementrequests] collection in insertion order. *)
Record Store : Type := {
  lots : gmap string Lot;
  users : gmap string User;
  requests : list ReplacementRequest
}.

(** ** Responses *)

Inductive Payload : Type :=
  | NoData
  | LotData (l : Lot)
  | QrData (lotId qrData qrImageDataUrl qrToken expiresAtIso : string)
  | RequestData (r : ReplacementRequest).

(** [res.status(code).json({ success, data, message })] *)
Record Response : Type := {
  code : Z;
  success : bool;
  message : string;
  data : Payload
}.

Definition fail (c : Z) (msg : string) : Response :=
  {| code := c; success := false; message := msg; data := NoData |}.

Definition ok (c : Z) (d : Payload) (msg : string) : Response :=
  {| code := c; success := true; message := msg; data := d |}.

(** The failure kinds of the engine, as the responses that carry them. *)
Definition TokenNotFound : Response := fail 401 "Invalid QR token".
Definition TokenExpired : Response := fail 401 "QR token has expired".
Definition NotFound : Response := fail 404 "Lot not found".
Definition InvalidStatus : Response := fail 400 "Invalid status".
Definition InvalidCondition : Response :=
  fail 400 "Valid condition is required (good, worn, replace)".
Definition MissingFields : Response := fail 400 "Reason and description are required".
Definition NotOwner : Response :=
  fail 403 "Access denied. You can only generate QR codes for your own lots.".
Definition Forbidden (r : Response) : Prop := code r = 403 /\ success r = false.

(** ** The handler monad *)

(** What a handler reads from outside while serving one request. *)
Record Env : Type := {
  clock : nat -> Z;            (* the k-th [Date.now()] / [new Date()] *)
  throws : nat -> bool;        (* does the k-th awaited call reject? *)
  uuidv4 : string;             (* the uuid drawn by [uuidv4()] *)
  toISOString : Z -> string;   (* [Date.prototype.toISOString] *)
  stringify : Lot -> string;   (* [JSON.stringify] of the QR payload of a lot *)
  toDataURL : string -> string (* the bitmap [QRCode.toDataURL] renders *)
}.

Record Ctx : Type := {
  store : Store;
  reads : nat;   (* clock readings made so far *)
  awaits : nat   (* awaited calls made so far *)
}.

Inductive Outcome (A : Type) : Type :=
  | Done (a : A)
  | Thrown.
Arguments Done {A} a.
Arguments Thrown {A}.

Definition IO (A : Type) : Type := Env -> Ctx -> Outcome A * Ctx.

Definition ret {A} (a : A) : IO A := fun _ c => (Done a, c).

Definition bind {A B} (m : IO A) (k : A -> IO B) : IO B :=
  fun e c =>
    match m e c with
    | (Done a, c') => k a e c'
    | (Thrown, c') => (Thrown, c')
    end.

Declare Scope io_scope.
Delimit Scope io_scope with io.
Notation "x <- m ;; k" := (bind m (fun x => k))
  (at level 100, m at next level, right associativity) : io_scope.
Notation "m ;; k" := (bind m (fun _ => k))
  (at level 100, right associativity) : io_scope.
Local Open Scope io_scope.

(** [try { body } catch (error) { return handler }] *)
Definition try_catch {A} (body : IO A) (handler : A) : IO A :=
  fun e c =>
    match body e c with
    | (Done a, c') => (Done a, c')
    | (Thrown, c') => (Done handler, c')
    end.

(** [Date.now()] *)
Definition now : IO Z :=
  fun e c => (Done (clock e (reads c)),
              {| store := store c; reads := S (reads c); awaits := awaits c |}).

Definition ask {A} (f : Env -> A) : IO A := fun e c => (Done (f e), c).

(** [await call]: the call rejects when the environment says so (a lost
    connection, a time-out) or when the store itself refuses it ([None]),
    and then leaves the database as it was; otherwise it runs on the
    database. *)
Definition await {A} (call : Store -> option (A * Store)) : IO A :=
  fun e c =>
    let c' := {| store := store c; reads := reads c; awaits := S (awaits c) |} in
    if throws e (awaits c) then (Thrown, c')
    else match call (store c) with
         | Some (a, s) => (Done a, {| store := s; reads := reads c; awaits := S (awaits c) |})
         | None => (Thrown, c')
         end.

(** A synchronous [throw] (a validation error raised before the store is
    reached). *)
Definition throw {A} : IO A := fun _ c => (Thrown, c).

(** Running a handler on a database. *)
Definition run (h : IO Response) (e : Env) (s : Store) : Response * Store :=
  match h e {| store := s; reads := 0; awaits := 0 |} with
  | (Done r, c) => (r, store c)
  | (Thrown, c) => (fail 500 "unhandled rejection", store c)
  end.

(** ** Model methods *)

(** [Lot.findOne({ id })] *)
Definition Lot_findOne (id : string) : IO (option Lot) :=
  await (fun s => Some (lots s !! id, s)).

(** [User.findOne({ id })] *)
Definition User_findOne (id : string) : IO (option User) :=
  await (fun s => Some (users s !! id, s)).

Definition set_lot_updatedAt (t : Z) (l : Lot) : Lot :=
  {| lot_id := lot_id l; partName := partName l; factoryName := factoryName l;
     lotNumber := lotNumber l; supplyDate := supplyDate l;
     manufacturingDate := manufacturingDate l; warrantyPeriod := warrantyPeriod l;
     status := status l; vendorId := vendorId l; qrCode := qrCode l;
     auditTrail := auditTrail l; qrTokens := qrTokens l;
     lot_createdAt := lot_createdAt l; lot_updatedAt := t |}.

(** [lot.status = st] *)
Definition set_status (st : LotStatus.t) (l : Lot) : Lot :=
  {| lot_id := lot_id l; partName := partName l; factoryName := factoryName l;
     lotNumber := lotNumber l; supplyDate := supplyDate l;
     manufacturingDate := manufacturingDate l; warrantyPeriod := warrantyPeriod l;
     status := st; vendorId := vendorId l; qrCode := qrCode l;
     auditTrail := auditTrail l; qrTokens := qrTokens l;
     lot_createdAt := lot_createdAt l; lot_updatedAt := lot_updatedAt l |}.

(** [lot.auditTrail.push(entry)] *)
Definition push_audit (entry : AuditEntry) (l : Lot) : Lot :=
  {| lot_id := lot_id l; partName := partName l; factoryName := factoryName l;
     lotNumber := lotNumber l; supplyDate := supplyDate l;
     manufacturingDate := manufacturingDate l; warrantyPeriod := warrantyPeriod l;
     status := status l; vendorId := vendorId l; qrCode := qrCode l;
     auditTrail := auditTrail l ++ [entry]; qrTokens := qrTokens l;
     lot_createdAt := lot_createdAt l; lot_updatedAt := lot_updatedAt l |}.

(** [lot.qrTokens.push(tk)] *)
Definition push_token (tk : QrToken) (l : Lot) : Lot :=
  {| lot_id := lot_id l; partName := partName l; factoryName := factoryName l;
     lotNumber := lotNumber l; supplyDate := supplyDate l;
     manufacturingDate := manufacturingDate l; warrantyPeriod := warrantyPeriod l;
     status := status l; vendorId := vendorId l; qrCode := qrCode l;
     auditTrail := auditTrail l; qrTokens := qrTokens l ++ [tk];
     lot_createdAt := lot_createdAt l; lot_updatedAt := lot_updatedAt l |}.

(** [user.history.push(entry)] *)
Definition push_history (entry : UserHistoryEntry) (u : User) : User :=
  {| user_id := user_id u; firstName := firstName u; lastName := lastName u;
     role := role u; history := history u ++ [entry];
     user_updatedAt := user_updatedAt u |}.

Definition set_user_updatedAt (t : Z) (u : User) : User :=
  {| user_id := user_id u; firstName := firstName u; lastName := lastName u;
     role := role u; history := history u; user_updatedAt := t |}.

Definition put_lot (l : Lot) (s : Store) : Store :=
  {| lots := <[lot_id l := l]> (lots s); users := users s; requests := requests s |}.

Definition put_user (u : User) (s : Store) : Store :=
  {| lots := lots s; users := <[user_id u := u]> (users s); requests := requests s |}.

Definition add_request (r : ReplacementRequest) (s : Store) : Store :=
  {| lots := lots s; users := users s; requests := requests s ++ [r] |}.

(** [lot.save()] of a document that was loaded and modified: the schema's
    [timestamps: true] stamps [updatedAt], then the document replaces the
    stored one.  Returns the document as saved. *)
Definition Lot_save (l : Lot) : IO Lot :=
  t <- now ;;
  let l' := set_lot_updatedAt t l in
  await (fun s => Some (l', put_lot l' s)).

(** [user.save()] *)
Definition User_save (u : User) : IO unit :=
  t <- now ;;
  let u' := set_user_updatedAt t u in
  await (fun s => Some (tt, put_user u' s)).

(** The closed vocabularies of [replacementRequestSchema]. *)
Definition reasons : list string :=
  ["defective"; "damaged"; "worn"; "expired"; "incorrect_spec"; "other"].
Definition priorities : list string := ["low"; "medium"; "high"; "urgent"].
Definition requester_roles : list UserRole := [track_worker; inspector].

(** Schema validation of a new replacement request: [enum] on
    [requestedByRole], [reason] and [priority], and [required] on
    [description], which [trim: true] has already trimmed. *)
Definition valid_request (r : ReplacementRequest) : bool :=
  bool_decide (requestedByRole r ∈ requester_roles)
  && bool_decide (reason r ∈ reasons)
  && negb (String.eqb (description r) "")
  && bool_decide (priority r ∈ priorities).

(** [replacementRequest.save()] of a new document: validation fails before
    the store is reached; the store rejects an [id] it already holds (the
    index declared by [unique: true]); otherwise the document is inserted,
    stamped with its creation time. *)
Definition ReplacementRequest_save (r : ReplacementRequest) : IO ReplacementRequest :=
  if valid_request r then
    t <- now ;;
    let r' :=
      {| req_id := req_id r; req_lotId := req_lotId r; requestedBy := requestedBy r;
         requestedByRole := requestedByRole r; reason := reason r;
         description := description r; photos := photos r; priority := priority r;
         req_status := req_status r; req_createdAt := Some t |} in
    await (fun s =>
      if existsb (fun x => String.eqb (req_id x) (req_id r')) (requests s) then None
      else Some (r', add_request r' s))
  else throw.

(** [ReplacementRequest.generateReplacementRequestId()] *)
Definition generateReplacementRequestId : IO string :=
  t <- now ;; ret ("REQ" +:+ pretty t).

(** ** Middleware *)

(** [authenticate], for the two kinds of request of this model: one that
    carries no bearer token, [None], which the middleware answers 401
    before anything else, and one whose token verifies and whose user is
    found, [Some u], where [u] is [req.user].  What the middleware does
    with any other request (500 when [JWT_SECRET] is not set, 401 for a
    token that does not verify or names no user) is not modelled: no
    statement below is about such a request. *)
Definition authenticate (req_user : option User) (next : User -> IO Response) : IO Response :=
  match req_user with
  | None => ret (fail 401 "Access denied. No token provided.")
  | Some u => next u
  end.

(** [roles.join(', ')] *)
Fixpoint join (sep : string) (l : list string) : string :=
  match l with
  | [] => ""
  | [x] => x
  | x :: rest => x +:+ sep +:+ join sep rest
  end.

(** [authorize(...roles)] *)
Definition authorize (roles : list UserRole) (req_user : option User)
    (next : User -> IO Response) : IO Response :=
  match req_user with
  | None => ret (fail 401 "Access denied. User not authenticated.")
  | Some u =>
      if negb (bool_decide (role u ∈ roles)) then
        ret (fail 403 ("Access denied. Required roles: "
                       +:+ join ", " (map role_name roles)
                       +:+ ". Your role: " +:+ role_name (role u) +:+ "."))
      else next u
  end.

(** [`${req.user.firstName} ${req.user.lastName}`] *)
Definition full_name (u : User) : string := firstName u +:+ " " +:+ lastName u.

(** ** Route handlers *)

Definition day_ms : Z := 24 * 60 * 60 * 1000.

(** POST /:lotId/generate-qr  (authenticate, authorize('vendor')) *)
Definition generate_qr_handler (lotId : string) (user : User) : IO Response :=
  try_catch
    (let userId := user_id user in
     found <- Lot_findOne (toUpperCase lotId) ;;
     match found with
     | None => ret NotFound
     | Some lot =>
         if negb (String.eqb (vendorId lot) userId) then ret NotOwner
         else
           uuid <- ask uuidv4 ;;
           let qrToken := String.substring 0 8 uuid in
           t <- now ;;
           let expires := t + day_ms in
           qrString <- ask (fun e => stringify e lot) ;;
           render <- ask toDataURL ;;
           qrImageDataUrl <- await (fun s => Some (render qrString, s)) ;;
           iso <- ask toISOString ;;
           generated <- now ;;
           let lot := push_token {| token := qrToken; generatedAt := generated;
                                    expiresAt := expires; generatedBy := userId |} lot in
           stamp <- now ;;
           let lot := push_audit
             {| timestamp := stamp; actorId := userId; actorName := full_name user;
                action := "qr_generated";
                details := "Ephemeral QR code generated for lot";
                metadata := [("qrToken", JStr qrToken);
                             ("expiresAt", JStr (iso expires))] |} lot in
           lot <- Lot_save lot ;;
           mirror <- User_findOne userId ;;
           match mirror with
           | Some u =>
               stamp <- now ;;
               User_save (push_history
                 {| h_timestamp := stamp; h_action := "generate_qr";
                    targetType := "lot"; targetId := lot_id lot;
                    h_details := "Generated QR code for lot " +:+ lotNumber lot;
                    h_metadata := [("qrToken", JStr qrToken);
                                   ("expiresAt", JStr (iso expires))] |} u)
           | None => ret tt
           end ;;
           ret (ok 200 (QrData (lot_id lot) qrString qrImageDataUrl qrToken (iso expires))
                   "Ephemeral QR code generated successfully")
     end)
    (fail 500 "Server error generating QR code").

Definition generate_qr (lotId : string) (req_user : option User) : IO Response :=
  authenticate req_user (fun u => authorize [vendor] (Some u) (generate_qr_handler lotId)).

(** [lot.qrTokens.find(t => t.token === token)] *)
Definition find_token (tok : string) (l : Lot) : option QrToken :=
  List.find (fun t => String.eqb (token t) tok) (qrTokens l).

(** GET /:lotId?token=  (authenticate) *)
Definition get_lot_handler (lotId : string) (tok : option string) (user : User) : IO Response :=
  try_catch
    (let userId := user_id user in
     found <- Lot_findOne (toUpperCase lotId) ;;
     match found with
     | None => ret NotFound
     | Some lot =>
         denied <-
           (if truthy tok then
              match find_token (default "" tok) lot with
              | None => ret (Some TokenNotFound)
              | Some qrToken =>
                  t <- now ;;
                  if t >? expiresAt qrToken then ret (Some TokenExpired) else ret None
              end
            else
              if bool_decide (role user = vendor) && negb (String.eqb (vendorId lot) userId)
              then ret (Some (fail 403 "Access denied"))
              else ret None) ;;
         match denied with
         | Some r => ret r
         | None => ret (ok 200 (LotData lot) "Lot retrieved successfully")
         end
     end)
    (fail 500 "Server error retrieving lot").

Definition get_lot (lotId : string) (tok : option string) (req_user : option User) : IO Response :=
  authenticate req_user (get_lot_handler lotId tok).

(** Body of PUT /:id/status *)
Record StatusBody : Type := {
  b_status : option string;
  b_notes : option string;
  b_sampleCheck : JValue
}.

(** PUT /:id/status  (authenticate, authorize('depot-staff')) *)
Definition put_status_handler (id : string) (body : StatusBody) (user : User) : IO Response :=
  try_catch
    (let userId := user_id user in
     match LotStatus.parse (b_status body) with
     | None => ret InvalidStatus
     | Some st =>
         found <- Lot_findOne (toUpperCase id) ;;
         match found with
         | None => ret NotFound
         | Some lot =>
             stamp <- now ;;
             let lot := push_audit
               {| timestamp := stamp; actorId := userId; actorName := full_name user;
                  action := "status_updated";
                  details := "Status changed from " +:+ LotStatus.name (status lot)
                             +:+ " to " +:+ LotStatus.name st;
                  metadata := [("previousStatus", JStr (LotStatus.name (status lot)));
                               ("newStatus", JStr (LotStatus.name st));
                               ("notes", jopt (b_notes body));
                               ("sampleCheck", b_sampleCheck body)] |} lot in
             let lot := set_status st lot in
             t <- now ;;
             let lot := set_lot_updatedAt t lot in
             lot <- Lot_save lot ;;
             mirror <- User_findOne userId ;;
             match mirror with
             | Some u =>
                 stamp <- now ;;
                 User_save (push_history
                   {| h_timestamp := stamp; h_action := "update_lot_status";
                      targetType := "lot"; targetId := lot_id lot;
                      h_details := "Updated lot " +:+ lotNumber lot +:+ " status to "
                                   +:+ LotStatus.name st;
                      h_metadata := [("previousStatus", JStr (LotStatus.name (status lot)));
                                     ("newStatus", JStr (LotStatus.name st));
                                     ("notes", jopt (b_notes body));
                                     ("sampleCheck", b_sampleCheck body)] |} u)
             | None => ret tt
             end ;;
             ret (ok 200 (LotData lot) "Lot status updated successfully")
         end
     end)
    (fail 500 "Server error updating lot status").

Definition put_status (id : string) (body : StatusBody) (req_user : option User) : IO Response :=
  authenticate req_user (fun u => authorize [depot_staff] (Some u) (put_status_handler id body)).

(** Body of POST /:lotId/install *)
Record InstallBody : Type := {
  b_location : option string;
  b_section : option string;
  b_installationDate : option string;
  i_notes : option string
}.

(** [installationDate || new Date().toISOString()] *)
Definition installation_date (given : option string) : IO string :=
  if truthy given then ret (default "" given)
  else (t <- now ;; iso <- ask toISOString ;; ret (iso t)).

(** POST /:lotId/install  (authenticate, authorize('track-worker')) *)
Definition install_handler (lotId : string) (body : InstallBody) (user : User) : IO Response :=
  try_catch
    (let userId := user_id user in
     if negb (truthy (b_location body)) || negb (truthy (b_section body)) then
       ret (fail 400 "Location and section are required")
     else
       let location := default "" (b_location body) in
       let section := default "" (b_section body) in
       found <- Lot_findOne (toUpperCase lotId) ;;
       match found with
       | None => ret NotFound
       | Some lot =>
           stamp <- now ;;
           date <- installation_date (b_installationDate body) ;;
           let lot := push_audit
             {| timestamp := stamp; actorId := userId; actorName := full_name user;
                action := "installation_recorded";
                details := "Installation recorded at " +:+ location +:+ ", " +:+ section;
                metadata := [("location", JStr location); ("section", JStr section);
                             ("installationDate", JStr date);
                             ("notes", jopt (i_notes body))] |} lot in
           lot <- Lot_save lot ;;
           mirror <- User_findOne userId ;;
           match mirror with
           | Some u =>
               stamp <- now ;;
               date <- installation_date (b_installationDate body) ;;
               User_save (push_history
                 {| h_timestamp := stamp; h_action := "install_lot";
                    targetType := "lot"; targetId := lot_id lot;
                    h_details := "Installed lot " +:+ lotNumber lot +:+ " at " +:+ location;
                    h_metadata := [("location", JStr location); ("section", JStr section);
                                   ("installationDate", JStr date);
                                   ("notes", jopt (i_notes body))] |} u)
           | None => ret tt
           end ;;
           ret (ok 200 (LotData lot) "Installation recorded successfully")
       end)
    (fail 500 "Server error recording installation").

Definition install (lotId : string) (body : InstallBody) (req_user : option User) : IO Response :=
  authenticate req_user (fun u => authorize [track_worker] (Some u) (install_handler lotId body)).

(** Body of POST /:lotId/inspection *)
Record InspectionBody : Type := {
  b_condition : option string;
  n_notes : option string;
  n_photos : option (list string);
  b_nextInspectionDue : option string
}.

Definition conditions : list string := ["good"; "worn"; "replace"].

(** POST /:lotId/inspection  (authenticate, authorize('inspector')) *)
Definition inspection_handler (lotId : string) (body : InspectionBody) (user : User)
    : IO Response :=
  try_catch
    (let userId := user_id user in
     let condition := default "" (b_condition body) in
     if negb (truthy (b_condition body)) || negb (bool_decide (condition ∈ conditions)) then
       ret InvalidCondition
     else
       found <- Lot_findOne (toUpperCase lotId) ;;
       match found with
       | None => ret NotFound
       | Some lot =>
           iso <- ask toISOString ;;
           stamp <- now ;;
           t <- now ;;
           let lot := push_audit
             {| timestamp := stamp; actorId := userId; actorName := full_name user;
                action := "inspection_recorded";
                details := "Inspection completed - condition: " +:+ condition;
                metadata := [("condition", JStr condition); ("notes", jopt (n_notes body));
                             ("photos", jphotos (n_photos body));
                             ("nextInspectionDue", jopt (b_nextInspectionDue body));
                             ("inspectionDate", JStr (iso t))] |} lot in
           lot <- Lot_save lot ;;
           mirror <- User_findOne userId ;;
           match mirror with
           | Some u =>
               stamp <- now ;;
               t <- now ;;
               User_save (push_history
                 {| h_timestamp := stamp; h_action := "inspect_lot";
                    targetType := "lot"; targetId := lot_id lot;
                    h_details := "Inspected lot " +:+ lotNumber lot +:+ " - condition: "
                                 +:+ condition;
                    h_metadata := [("condition", JStr condition);
                                   ("notes", jopt (n_notes body));
                                   ("photos", jphotos (n_photos body));
                                   ("nextInspectionDue", jopt (b_nextInspectionDue body));
                                   ("inspectionDate", JStr (iso t))] |} u)
           | None => ret tt
           end ;;
           ret (ok 200 (LotData lot) "Inspection recorded successfully")
       end)
    (fail 500 "Server error recording inspection").

Definition inspection (lotId : string) (body : InspectionBody) (req_user : option User)
    : IO Response :=
  authenticate req_user (fun u => authorize [inspector] (Some u) (inspection_handler lotId body)).

(** Body of POST /:lotId/replacement-request *)
Record ReplacementBody : Type := {
  b_reason : option string;
  b_description : option string;
  r_photos : option (list string);
  b_priority : option string
}.

(** POST /:lotId/replacement-request
    (authenticate, authorize('track-worker', 'inspector')) *)
Definition replacement_request_handler (lotId : string) (body : ReplacementBody) (user : User)
    : IO Response :=
  try_catch
    (let userId := user_id user in
     (* const { ..., priority = 'medium' } = req.body *)
     let priority := default "medium" (b_priority body) in
     if negb (truthy (b_reason body)) || negb (truthy (b_description body)) then
       ret MissingFields
     else
       let reason := default "" (b_reason body) in
       let description := default "" (b_description body) in
       found <- Lot_findOne (toUpperCase lotId) ;;
       match found with
       | None => ret NotFound
       | Some lot =>
           id <- generateReplacementRequestId ;;
           let replacementRequest :=
             {| req_id := toUpperCase id; req_lotId := lot_id lot;
                requestedBy := userId; requestedByRole := role user;
                reason := reason; description := trim description;
                photos := default [] (r_photos body); priority := priority;
                req_status := RequestStatus.pending; req_createdAt := None |} in
           replacementRequest <- ReplacementRequest_save replacementRequest ;;
           stamp <- now ;;
           let lot := push_audit
             {| timestamp := stamp; actorId := userId; actorName := full_name user;
                action := "replacement_requested";
                details := "Replacement request created - reason: " +:+ reason;
                metadata := [("requestId", JStr (req_id replacementRequest));
                             ("reason", JStr reason); ("description", JStr description);
                             ("priority", JStr priority);
                             ("photos", jphotos (r_photos body))] |} lot in
           lot <- Lot_save lot ;;
           mirror <- User_findOne userId ;;
           match mirror with
           | Some u =>
               stamp <- now ;;
               User_save (push_history
                 {| h_timestamp := stamp; h_action := "request_replacement";
                    targetType := "lot"; targetId := lot_id lot;
                    h_details := "Requested replacement for lot " +:+ lotNumber lot;
                    h_metadata := [("requestId", JStr (req_id replacementRequest));
                                   ("reason", JStr reason); ("description", JStr description);
                                   ("priority", JStr priority);
                                   ("photos", jphotos (r_photos body))] |} u)
           | None => ret tt
           end ;;
           ret (ok 201 (RequestData replacementRequest)
                   "Replacement request created successfully")
       end)
    (fail 500 "Server error creating replacement request").

Definition replacement_request (lotId : string) (body : ReplacementBody)
    (req_user : option User) : IO Response :=
  authenticate req_user
    (fun u => authorize [track_worker; inspector] (Some u)
                (replacement_request_handler lotId body)).

(** ** The engine as a whole *)

Inductive Operation : Type :=
  | GenerateQr (lotId : string)
  | GetLot (lotId : string) (tok : option string)
  | UpdateStatus (id : string) (body : StatusBody)
  | Install (lotId : string) (body : InstallBody)
  | Inspect (lotId : string) (body : InspectionBody)
  | RequestReplacement (lotId : string) (body : ReplacementBody).

Definition handle (op : Operation) (req_user : option User) : IO Response :=
  match op with
  | GenerateQr lotId => generate_qr lotId req_user
  | GetLot lotId tok => get_lot lotId tok req_user
  | UpdateStatus id body => put_status id body req_user
  | Install lotId body => install lotId body req_user
  | Inspect lotId body => inspection lotId body req_user
  | RequestReplacement lotId body => replacement_request lotId body req_user
  end.

(** One request: who sends it, what it asks, and what the outside world
    does while it is served. *)
Record Request : Type := {
  sender : option User;
  operation : Operation;
  env : Env
}.

Definition serve (rq : Request) (s : Store) : Response * Store :=
  run (handle (operation rq) (sender rq)) (env rq) s.

(** Serving a sequence of requests one after another. *)
Fixpoint serve_all (rqs : list Request) (s : Store) : Store :=
  match rqs with
  | [] => s
  | rq :: rest => serve_all rest (snd (serve rq s))
  end.

(** The responses of a sequence of requests served one after another. *)
Fixpoint serve_trace (rqs : list Request) (s : Store) : list Response :=
  match rqs with
  | [] => []
  | rq :: rest => fst (serve rq s) :: serve_trace rest (snd (serve rq s))
  end.

(** * Specification vocabulary *)

(** The unique indexes on [id]: a document is stored under its own [id]. *)
Definition store_ok (s : Store) : Prop :=
  map_Forall (fun k l => lot_id l = k) (lots s) /\
  map_Forall (fun k u => user_id u = k) (users s).

(** [s'] keeps every lot of [s], with an audit trail and a token list that
    start with the ones it had in [s]. *)
Definition grows (s s' : Store) : Prop :=
  forall k l, lots s !! k = Some l ->
    exists l', lots s' !! k = Some l'
      /\ auditTrail l `prefix_of` auditTrail l'
      /\ qrTokens l `prefix_of` qrTokens l'.





(** [post m e c Q]: running [m] from context [c] ends in an outcome and a
    context that satisfy [Q]. *)
Definition post {A} (m : IO A) (e : Env) (c : Ctx) (Q : Outcome A -> Ctx -> Prop) : Prop :=
  Q (fst (m e c)) (snd (m e c)).

Definition tick (c : Ctx) : Ctx :=
  {| store := store c; reads := S (reads c); awaits := awaits c |}.

Definition called (s : Store) (c : Ctx) : Ctx :=
  {| store := s; reads := reads c; awaits := S (awaits c) |}.

(** ** The scenario of the specification *)

Module Scenario.
Definition V1 : User :=
  {| user_id := "V1"; firstName := "Vera"; lastName := "Vendor"; role := vendor;
     history := []; user_updatedAt := 0 |}.
Definition V2 : User :=
  {| user_id := "V2"; firstName := "Other"; lastName := "Vendor"; role := vendor;
     history := []; user_updatedAt := 0 |}.
Definition D1 : User :=
  {| user_id := "D1"; firstName := "Dev"; lastName := "Depot"; role := depot_staff;
     history := []; user_updatedAt := 0 |}.
Definition T1 : User :=
  {| user_id := "T1"; firstName := "Tara"; lastName := "Track"; role := track_worker;
     history := []; user_updatedAt := 0 |}.
Definition I1 : User :=
  {| user_id := "I1"; firstName := "Ira"; lastName := "Inspector"; role := inspector;
     history := []; user_updatedAt := 0 |}.

Definition LOT001 : Lot :=
  {| lot_id := "LOT001"; partName := "Elastic rail clip"; factoryName := "Factory A";
     lotNumber := "LN-001"; supplyDate := 0; manufacturingDate := 0;
     warrantyPeriod := "5 years"; status := LotStatus.pending; vendorId := "V1";
     qrCode := None; auditTrail := []; qrTokens := [];
     lot_createdAt := 0; lot_updatedAt := 0 |}.

Definition db : Store :=
  {| lots := {[ "LOT001" := LOT001 ]};
     users := {[ "V1" := V1; "V2" := V2; "D1" := D1; "T1" := T1; "I1" := I1 ]};
     requests := [] |}.

(** The outside world: the first clock reading is [t] and every later one
    is a millisecond further; the awaited calls listed in [rejected]
    reject.  Dates print as their millisecond count. *)
Definition world (t : Z) (rejected : list nat) : Env :=
  {| clock := fun k => t + Z.of_nat k;
     throws := fun k => bool_decide (k ∈ rejected);
     uuidv4 := "a1b2c3d4-58cc-4372-a567-0e02b2c3d479";
     toISOString := fun z => pretty z;
     stringify := fun l => "{lotId:" +:+ lot_id l +:+ "}";
     toDataURL := fun payload => "data:image/png;base64," +:+ payload |}.

Definition accept : StatusBody :=
  {| b_status := Some "accepted"; b_notes := Some "sample ok";
     b_sampleCheck := JObj [("visual", JBool true)] |}.

Definition cracked : ReplacementBody :=
  {| b_reason := Some "defective"; b_description := Some "cracked";
     r_photos := None; b_priority := None |}.

Definition broken : ReplacementBody :=
  {| b_reason := Some "broken"; b_description := Some "cracked";
     r_photos := None; b_priority := None |}.

Definition section_a : InstallBody :=
  {| b_location := Some "Section A"; b_section := Some "Track 1";
     b_installationDate := None; i_notes := None |}.

(** V1 issues a token for LOT001 at time 1000. *)
Definition issued_db : Store :=
  snd (run (generate_qr "LOT001" (Some V1)) (world 1000 []) db).

Definition issued_token : QrToken :=
  {| token := "a1b2c3d4"; generatedAt := 1001; expiresAt := 1000 + day_ms;
     generatedBy := "V1" |}.

Definition issued_lot : Lot :=
  {| lot_id := "LOT001"; partName := "Elastic rail clip"; factoryName := "Factory A";
     lotNumber := "LN-001"; supplyDate := 0; manufacturingDate := 0;
     warrantyPeriod := "5 years"; status := LotStatus.pending; vendorId := "V1";
     qrCode := None;
     auditTrail :=
       [{| timestamp := 1002; actorId := "V1"; actorName := "Vera Vendor";
           action := "qr_generated"; details := "Ephemeral QR code generated for lot";
           metadata := [("qrToken", JStr "a1b2c3d4");
                        ("expiresAt", JStr (pretty (1000 + day_ms)))] |}];
     qrTokens := [issued_token];
     lot_createdAt := 0; lot_updatedAt := 1003 |}.

(** A later world in which another uuid is drawn. *)
Definition later : Env :=
  {| clock := fun k => 2000 + Z.of_nat k;
     throws := fun _ => false;
     uuidv4 := "9f8e7d6c-1b2a-4c3d-8e9f-001122334455";
     toISOString := fun z => pretty z;
     stringify := fun l => "{lotId:" +:+ lot_id l +:+ "}";
     toDataURL := fun payload => "data:image/png;base64," +:+ payload |}.

(** A scan of LOT001 by D1 presenting the issued token at time [t]. *)
Definition scan (t : Z) : Request :=
  {| sender := Some D1; operation := GetLot "LOT001" (Some "a1b2c3d4");
     env := world t [] |}.

(** D1 accepts LOT001 while the awaited calls in [rejected] reject. *)
Definition acceptance (rejected : list nat) : Request :=
  {| sender := Some D1; operation := UpdateStatus "LOT001" accept;
     env := world 1000 rejected |}.

(** I1 asks for a replacement of LOT001. *)
Definition replacement (body : ReplacementBody) (rejected : list nat) : Request :=
  {| sender := Some I1; operation := RequestReplacement "LOT001" body;
     env := world 3000 rejected |}.

(** The workflow of the specification's scenarios, in order. *)
Definition workflow : list Request :=
  [ {| sender := Some V1; operation := GenerateQr "LOT001"; env := world 1000 [] |};
    acceptance [];
    {| sender := Some T1; operation := Install "LOT001" section_a; env := world 2000 [] |};
    replacement cracked [] ].
End Scenario.

(** * More of the code *)

(** ** Vocabulary for the engine as a whole *)

(** The lot an operation addresses: [lotId.toUpperCase()]. *)
Definition target (op : Operation) : string :=
  match op with
  | GenerateQr lotId | GetLot lotId _ | UpdateStatus lotId _
  | Install lotId _ | Inspect lotId _ | RequestReplacement lotId _ => toUpperCase lotId
  end.

(** The operations whose handler calls [save]. *)
Definition mutating (op : Operation) : bool :=
  match op with
  | GetLot _ _ => false
  | _ => true
  end.

(** The action tag a handler gives to the audit entry it pushes. *)
Definition audit_tag (op : Operation) : string :=
  match op with
  | GenerateQr _ => "qr_generated"
  | GetLot _ _ => ""
  | UpdateStatus _ _ => "status_updated"
  | Install _ _ => "installation_recorded"
  | Inspect _ _ => "inspection_recorded"
  | RequestReplacement _ _ => "replacement_requested"
  end.

(** The roles named in the [authorize(...)] of each route; GET /:lotId has
    no [authorize]. *)
Definition permitted (op : Operation) : list UserRole :=
  match op with
  | GenerateQr _ => [vendor]
  | GetLot _ _ => [admin; vendor; depot_staff; track_worker; inspector]
  | UpdateStatus _ _ => [depot_staff]
  | Install _ _ => [track_worker]
  | Inspect _ _ => [inspector]
  | RequestReplacement _ _ => [track_worker; inspector]
  end.

(** The same operation on another spelling of the lot id. *)
Definition with_lot_id (f : string -> string) (op : Operation) : Operation :=
  match op with
  | GenerateQr lotId => GenerateQr (f lotId)
  | GetLot lotId tok => GetLot (f lotId) tok
  | UpdateStatus lotId body => UpdateStatus (f lotId) body
  | Install lotId body => Install (f lotId) body
  | Inspect lotId body => Inspect (f lotId) body
  | RequestReplacement lotId body => RequestReplacement (f lotId) body
  end.

(** The action tag a handler gives to the entry it mirrors into the
    sender's history. *)
Definition history_tag (op : Operation) : string :=
  match op with
  | GenerateQr _ => "generate_qr"
  | GetLot _ _ => ""
  | UpdateStatus _ _ => "update_lot_status"
  | Install _ _ => "install_lot"
  | Inspect _ _ => "inspect_lot"
  | RequestReplacement _ _ => "request_replacement"
  end.

(** The fields of a lot that no handler of the engine assigns. *)
Definition same_identity (l l' : Lot) : Prop :=
  lot_id l' = lot_id l /\ vendorId l' = vendorId l /\ lotNumber l' = lotNumber l
  /\ partName l' = partName l /\ factoryName l' = factoryName l
  /\ supplyDate l' = supplyDate l /\ manufacturingDate l' = manufacturingDate l
  /\ warrantyPeriod l' = warrantyPeriod l /\ qrCode l' = qrCode l
  /\ lot_createdAt l' = lot_createdAt l.

(** The schema invariants of the [replacementrequests] collection: the
    unique index on [id] and the validators of the schema. *)
Definition requests_ok (s : Store) : Prop :=
  NoDup (map req_id (requests s))
  /\ Forall (fun r => valid_request r = true) (requests s).

(** The operation whose handler creates a replacement request. *)
Definition creates_request (op : Operation) : bool :=
  match op with RequestReplacement _ _ => true | _ => false end.

(** Does the request ask for a change of lot [k]? *)
Definition aims_at (k : string) (rq : Request) : bool :=
  mutating (operation rq) && bool_decide (target (operation rq) = k).

(** The number of requests of a sequence, served one after another, that
    ask for a change of lot [k] and are answered with success. *)
Fixpoint successes (k : string) (rqs : list Request) (s : Store) : nat :=
  match rqs with
  | [] => 0
  | rq :: rest =>
      (if aims_at k rq && success (fst (serve rq s)) then 1 else 0)%nat
      + successes k rest (snd (serve rq s))
  end.

(** ** The lot and user routes

    [lotRoutes.ts] and the user router answer with JSON bodies in which
    [message] or [data] may be absent; [data] is a lot or a user document.
    The user documents of the model have no [password], which is what
    [.select('-password')] leaves of them. *)

Module Api.
Inductive Document : Type :=
  | LotDoc (l : Lot)
  | UserDoc (u : User).

Record Reply : Type := {
  rcode : Z;
  rsuccess : bool;
  rmessage : option string;
  rdata : option Document
}.

(** [res.status(c).json({ success: false, message })] *)
Definition refuse (c : Z) (msg : string) : Reply :=
  {| rcode := c; rsuccess := false; rmessage := Some msg; rdata := None |}.

Definition exec (h : IO Reply) (e : Env) (s : Store) : Reply * Store :=
  match h e {| store := s; reads := 0; awaits := 0 |} with
  | (Done r, c) => (r, store c)
  | (Thrown, c) => (refuse 500 "unhandled rejection", store c)
  end.

(** The middleware of [middleware/auth], in front of these routes. *)
Definition authenticate (req_user : option User) (next : User -> IO Reply) : IO Reply :=
  match req_user with
  | None => ret (refuse 401 "Access denied. No token provided.")
  | Some u => next u
  end.

Definition authorize (roles : list UserRole) (req_user : option User)
    (next : User -> IO Reply) : IO Reply :=
  match req_user with
  | None => ret (refuse 401 "Access denied. User not authenticated.")
  | Some u =>
      if negb (bool_decide (role u ∈ roles)) then
        ret (refuse 403 ("Access denied. Required roles: "
                         +:+ join ", " (map role_name roles)
                         +:+ ". Your role: " +:+ role_name (role u) +:+ "."))
      else next u
  end.

(** GET /api/lots/:id  (authenticate) *)
Definition lot_by_id_handler (id : string) (user : User) : IO Reply :=
  try_catch
    (found <- Lot_findOne (toUpperCase id) ;;
     match found with
     | None => ret (refuse 404 "Lot not found")
     | Some lot =>
         if bool_decide (role user = vendor) && negb (String.eqb (vendorId lot) (user_id user))
         then ret (refuse 403 "Access denied")
         else ret {| rcode := 200; rsuccess := true; rmessage := None;
                     rdata := Some (LotDoc lot) |}
     end)
    (refuse 500 "Server error fetching lot").

Definition lot_by_id (id : string) (req_user : option User) : IO Reply :=
  authenticate req_user (lot_by_id_handler id).

(** GET /api/lots/qr/:id  (public: no middleware) *)
Definition lot_by_qr (id : string) : IO Reply :=
  try_catch
    (found <- Lot_findOne (toUpperCase id) ;;
     match found with
     | None => ret (refuse 404 "Lot not found")
     | Some lot => ret {| rcode := 200; rsuccess := true; rmessage := None;
                          rdata := Some (LotDoc lot) |}
     end)
    (refuse 500 "Server error fetching lot").

(** GET /api/users/:id  (authenticate) *)
Definition get_user_handler (id : string) (user : User) : IO Reply :=
  try_catch
    (if negb (bool_decide (role user = admin)) && negb (String.eqb (user_id user) id)
     then ret (refuse 403 "Access denied")
     else
       found <- User_findOne (toUpperCase id) ;;
       match found with
       | None => ret (refuse 404 "User not found")
       | Some u => ret {| rcode := 200; rsuccess := true;
                          rmessage := Some "User retrieved successfully";
                          rdata := Some (UserDoc u) |}
       end)
    (refuse 500 "Server error retrieving user").

Definition get_user (id : string) (req_user : option User) : IO Reply :=
  authenticate req_user (get_user_handler id).

(** [User.findByIdAndDelete(user._id)] *)
Definition User_findByIdAndDelete (u : User) : IO unit :=
  await (fun s => Some (tt, {| lots := lots s; users := delete (user_id u) (users s);
                               requests := requests s |})).

(** DELETE /api/users/:id  (authenticate, authorize('admin')) *)
Definition delete_user_handler (id : string) (user : User) : IO Reply :=
  try_catch
    (if String.eqb (user_id user) id
     then ret (refuse 400 "Cannot delete your own account")
     else
       found <- User_findOne (toUpperCase id) ;;
       match found with
       | None => ret (refuse 404 "User not found")
       | Some u =>
           User_findByIdAndDelete u ;;
           ret {| rcode := 200; rsuccess := true;
                  rmessage := Some "User deleted successfully"; rdata := None |}
       end)
    (refuse 500 "Server error deleting user").

Definition delete_user (id : string) (req_user : option User) : IO Reply :=
  authenticate req_user (fun u => authorize [admin] (Some u) (delete_user_handler id)).
End Api.

(** ** Listing lots

    GET /api/lots.  The query parameters [page] and [limit] are what
    [Number(...)] makes of them, restricted to the integers ([None] stands
    for [NaN]: the parameter is absent or not a number).  The order in
    which [.sort({ createdAt: -1 })] lists the documents is left open. *)

Module Listing.
(** [data.pagination] *)
Record Pagination : Type := {
  page : Z;
  limit : Z;
  total : Z;
  pages : Z
}.

(** [data: { lots, pagination }] *)
Record Data : Type := {
  d_lots : list Lot;
  d_pagination : Pagination
}.

Record Reply : Type := {
  lcode : Z;
  lsuccess : bool;
  lmessage : option string;
  ldata : option Data
}.

Definition refuse (c : Z) (msg : string) : Reply :=
  {| lcode := c; lsuccess := false; lmessage := Some msg; ldata := None |}.

Definition exec (h : IO Reply) (e : Env) (s : Store) : Reply * Store :=
  match h e {| store := s; reads := 0; awaits := 0 |} with
  | (Done r, c) => (r, store c)
  | (Thrown, c) => (refuse 500 "unhandled rejection", store c)
  end.

(** [Number(x) || d] for a query parameter that is absent or not a number
    ([None]: [Number] gives [NaN]) or an integer. *)
Definition number_or (x : option Z) (d : Z) : Z :=
  match x with
  | Some n => if n =? 0 then d else n
  | None => d
  end.

(** [Math.ceil(a / b)] for [b > 0] *)
Definition ceil_div (a b : Z) : Z := - ((- a) / b).

(** The documents of the collection that match a query. *)
Definition matching (q : Lot -> bool) (s : Store) : list Lot :=
  List.filter q (map snd (map_to_list (lots s))).

Section Order.
(** [.sort({ createdAt: -1 })]: the order in which the database lists
    documents. *)
Variable sort : list Lot -> list Lot.

(** [Lot.find(query).sort({ createdAt: -1 }).skip(skip).limit(limit)] *)
Definition Lot_find (q : Lot -> bool) (skip limit : Z) : IO (list Lot) :=
  await (fun s => Some (take (Z.to_nat limit) (drop (Z.to_nat skip) (sort (matching q s))), s)).

(** [Lot.countDocuments(query)] *)
Definition Lot_countDocuments (q : Lot -> bool) : IO Z :=
  await (fun s => Some (Z.of_nat (length (matching q s)), s)).

(** GET /api/lots *)
Definition list_lots_handler (q_page q_limit : option Z) (user : User) : IO Reply :=
  try_catch
    (let query : Lot -> bool :=
       if bool_decide (role user = vendor)
       then fun l => String.eqb (vendorId l) (user_id user)
       else fun _ => true in
     let page := Z.max 1 (number_or q_page 1) in
     let limit := Z.max 1 (number_or q_limit 20) in
     let skip := (page - 1) * limit in
     lots <- Lot_find query skip limit ;;
     total <- Lot_countDocuments query ;;
     ret {| lcode := 200; lsuccess := true; lmessage := None;
            ldata := Some {| d_lots := lots;
                             d_pagination := {| page := page; limit := limit; total := total;
                                                pages := ceil_div total limit |} |} |})
    (refuse 500 "Server error fetching lots").

(** The route behind [authenticate]. *)
Definition list_lots (q_page q_limit : option Z) (req_user : option User) : IO Reply :=
  match req_user with
  | None => ret (refuse 401 "Access denied. No token provided.")
  | Some u => list_lots_handler q_page q_limit u
  end.
End Order.
End Listing.

(** ** Photo uploads

    POST /api/upload/inspection-photos.  [inspection_photos] is the
    handler, from the point where [upload.array('photos', 5)] has stored
    the files of the request and filled [req.files]; [route] is the whole
    chain, with what the upload middleware made of the request as an
    input.  The upload directory is the set of the paths at which a file
    exists; [fs.existsSync] and [fs.unlinkSync] are membership and removal
    and do not fail, and [path.join] is left open. *)

Module Upload.
(** [Express.Multer.File], as [multer.diskStorage] hands it to the route. *)
Record File : Type := {
  destination : string;
  filename : string;
  originalname : string;
  size : Z;
  mimetype : string
}.

(** One element of [data.files] in the answer. *)
Record Uploaded : Type := {
  u_filename : string;
  u_originalName : string;
  u_size : Z;
  u_mimetype : string;
  u_url : string;
  u_uploadedAt : string
}.

Record Reply : Type := {
  ucode : Z;
  usuccess : bool;
  umessage : string;
  ufiles : option (list Uploaded)   (* [data.files]; [data.count] is its length *)
}.

Definition refuse (c : Z) (msg : string) : Reply :=
  {| ucode := c; usuccess := false; umessage := msg; ufiles := None |}.

Definition allowedTypes : list string :=
  ["image/jpeg"; "image/jpg"; "image/png"; "image/webp"].

(** The upload directory: the set of paths at which a file exists.
    [path.join] is left open; [fs.existsSync] and [fs.unlinkSync] are
    membership and removal. *)
Section Disk.
Variable join : string -> string -> string.

(** [files.forEach(f => { if (fs.existsSync(p)) fs.unlinkSync(p) })] *)
Definition cleanup (files : list File) (disk : gset string) : gset string :=
  fold_left (fun d f =>
               let filePath := join (destination f) (filename f) in
               if bool_decide (filePath ∈ d) then d ∖ {[ filePath ]} else d)
            files disk.

(** The [for (const file of files)] loop: the message of the first check
    that fails, if any. *)
Fixpoint first_invalid (maxSize : Z) (files : list File) : option string :=
  match files with
  | [] => None
  | file :: rest =>
      if negb (bool_decide (mimetype file ∈ allowedTypes)) then
        Some "Only JPEG, PNG, and WebP images are allowed"
      else if size file >? maxSize then
        Some "File size exceeds maximum allowed size"
      else first_invalid maxSize rest
  end.

(** [files.map(file => ({ ..., uploadedAt: new Date().toISOString() }))],
    the clock being read once per file, from reading [k] on. *)
Fixpoint describe (e : Env) (k : nat) (files : list File) : list Uploaded :=
  match files with
  | [] => []
  | file :: rest =>
      {| u_filename := filename file; u_originalName := originalname file;
         u_size := size file; u_mimetype := mimetype file;
         u_url := "/uploads/inspections/" +:+ filename file;
         u_uploadedAt := toISOString e (clock e k) |} :: describe e (S k) rest
  end.

(** POST /api/upload/inspection-photos, after [upload.array('photos', 5)]
    has stored the files of the request and filled [req.files];
    [maxSize] is [parseInt(process.env.MAX_FILE_SIZE || '10485760')]. *)
Definition inspection_photos (maxSize : Z) (e : Env) (req_files : option (list File))
    (disk : gset string) : Reply * gset string :=
  match req_files with
  | None | Some [] => (refuse 400 "No files uploaded", disk)
  | Some files =>
      match first_invalid maxSize files with
      | Some msg => (refuse 400 msg, cleanup files disk)
      | None =>
          ({| ucode := 200; usuccess := true;
              umessage := pretty (length files) +:+ " photo(s) uploaded successfully";
              ufiles := Some (describe e 0 files) |}, disk)
      end
  end.
End Disk.

(** [fileFilter]: [file.mimetype.startsWith('image/')] *)
Definition fileFilter (file : File) : bool := String.prefix "image/" (mimetype file).

(** What the upload middleware can hand over: [upload.array('photos', 5)]
    with [limits: { fileSize, files: 5 }] and [fileFilter] admits at most
    five files, each one filtered in and of at most [fileSize] bytes. *)
Definition within_limits (fileSize : Z) (files : list File) : bool :=
  (length files <=? 5)%nat
  && forallb fileFilter files
  && forallb (fun f => size f <=? fileSize) files.

(** An error the upload middleware passes on: a [multer.MulterError] has a
    [code]; every error has a [message]. *)
Record UploadError : Type := {
  multer_code : option string;
  error_message : string
}.

(** What the upload middleware makes of a request: an error, or
    [req.files]. *)
Inductive Parsed : Type :=
  | Failed (error : UploadError)
  | Passed (req_files : option (list File)).

(** [router.use((error, req, res, next) => ...)], the error middleware of
    the router; [None] is [next(error)]. *)
Definition error_middleware (error : UploadError) : option Reply :=
  let by_code :=
    match multer_code error with
    | Some code =>
        if String.eqb code "LIMIT_FILE_SIZE" then Some (refuse 400 "File size too large")
        else if String.eqb code "LIMIT_FILE_COUNT" then Some (refuse 400 "Too many files")
        else if String.eqb code "LIMIT_UNEXPECTED_FILE"
             then Some (refuse 400 "Unexpected file field")
        else None
    | None => None
    end in
  match by_code with
  | Some r => Some r
  | None =>
      if String.eqb (error_message error) "Only image files are allowed"
      then Some (refuse 400 (error_message error))
      else None
  end.

(** The route: [authenticate], [authorize('inspector')],
    [upload.array('photos', 5)], then the handler or the error middleware.
    [disk] is the upload directory as the upload middleware leaves it. *)
Definition route (path_join : string -> string -> string) (maxSize : Z) (e : Env)
    (req_user : option User) (parsed : Parsed) (disk : gset string)
    : option Reply * gset string :=
  match req_user with
  | None => (Some (refuse 401 "Access denied. No token provided."), disk)
  | Some u =>
      if negb (bool_decide (role u ∈ [inspector])) then
        (Some (refuse 403 ("Access denied. Required roles: "
                           +:+ join ", " (map role_name [inspector])
                           +:+ ". Your role: " +:+ role_name (role u) +:+ ".")), disk)
      else
        match parsed with
        | Failed error => (error_middleware error, disk)
        | Passed req_files =>
            (Some (fst (inspection_photos path_join maxSize e req_files disk)),
             snd (inspection_photos path_join maxSize e req_files disk))
        end
  end.
End Upload.

(** ** More of the scenario: an administrator, an inspection, an upload *)

Module Office.
Definition A1 : User :=
  {| user_id := "ADM001"; firstName := "Ada"; lastName := "Admin"; role := admin;
     history := []; user_updatedAt := 0 |}.

(** The scenario database with the administrator's account. *)
Definition registry : Store :=
  {| lots := lots Scenario.db; users := <[ "ADM001" := A1 ]> (users Scenario.db);
     requests := requests Scenario.db |}.

Definition worn : InspectionBody :=
  {| b_condition := Some "worn"; n_notes := Some "pad worn"; n_photos := None;
     b_nextInspectionDue := None |}.

Definition fine : InspectionBody :=
  {| b_condition := Some "fine"; n_notes := None; n_photos := None;
     b_nextInspectionDue := None |}.

Definition nowhere : InstallBody :=
  {| b_location := None; b_section := Some "Track 1"; b_installationDate := None;
     i_notes := None |}.

Definition photo : Upload.File :=
  {| Upload.destination := "uploads/inspections"; Upload.filename := "a1-1000.png";
     Upload.originalname := "clip.png"; Upload.size := 2048;
     Upload.mimetype := "image/png" |}.

Definition animation : Upload.File :=
  {| Upload.destination := "uploads/inspections"; Upload.filename := "b2-1000.gif";
     Upload.originalname := "clip.gif"; Upload.size := 2048;
     Upload.mimetype := "image/gif" |}.

(** U+00A0, the no-break space, in UTF-8. *)
Definition nbsp : string :=
  String (ascii_of_nat 194) (String (ascii_of_nat 160) EmptyString).

(** [path.join] on a directory and a plain file name. *)
Definition join (dir name : string) : string := dir +:+ "/" +:+ name.

Definition disk : gset string :=
  {[ "uploads/inspections/a1-1000.png"; "uploads/inspections/b2-1000.gif";
     "uploads/inspections/old.png" ]}.
End Office.

(** * Reasoning about handlers *)

Section PostRules.
Context {A B : Type}.
Implicit Types (e : Env) (c : Ctx).

Lemma post_ret (a : A) e c Q : Q (Done a) c -> post (ret a) e c Q.
Proof. exact (fun H => H). Qed.

Lemma post_throw e c (Q : Outcome A -> Ctx -> Prop) : Q Thrown c -> post throw e c Q.
Proof. exact (fun H => H). Qed.

Lemma post_ask (f : Env -> A) e c Q : Q (Done (f e)) c -> post (ask f) e c Q.
Proof. exact (fun H => H). Qed.

Lemma post_bind (m : IO A) (k : A -> IO B) e c Q :
  post m e c (fun o c' =>
    match o with
    | Done a => post (k a) e c' Q
    | Thrown => Q Thrown c'
    end) ->
  post (bind m k) e c Q.
Proof.
  unfold post, bind. destruct (m e c) as [[a|] c']; exact (fun H => H).
Qed.

Lemma post_try_catch (body : IO A) (handler : A) e c Q :
  post body e c (fun o c' =>
    match o with
    | Done a => Q (Done a) c'
    | Thrown => Q (Done handler) c'
    end) ->
  post (try_catch body handler) e c Q.
Proof.
  unfold post, try_catch. destruct (body e c) as [[a|] c']; exact (fun H => H).
Qed.

Lemma post_await (call : Store -> option (A * Store)) e c Q :
  (throws e (awaits c) = true -> Q Thrown (called (store c) c)) ->
  (throws e (awaits c) = false ->
   match call (store c) with
   | Some (a, s) => Q (Done a) (called s c)
   | None => Q Thrown (called (store c) c)
   end) ->
  post (await call) e c Q.
Proof.
  unfold post, await, called. intros Hthrow Hcall.
  destruct (throws e (awaits c)).
  - now apply Hthrow.
  - specialize (Hcall eq_refl). now destruct (call (store c)) as [[a s]|].
Qed.
End PostRules.

Lemma post_now e c Q : Q (Done (clock e (reads c))) (tick c) -> post now e c Q.
Proof. exact (fun H => H). Qed.

(** A route never lets an exception escape, so [run] reads off the response
    and the database its handler ends with. *)
Lemma post_run (h : IO Response) e s (P : Response -> Store -> Prop) :
  post h e {| store := s; reads := 0; awaits := 0 |} (fun o c =>
    match o with
    | Done r => P r (store c)
    | Thrown => P (fail 500 "unhandled rejection") (store c)
    end) ->
  P (fst (run h e s)) (snd (run h e s)).
Proof.
  unfold post, run. now destruct (h e _) as [[r|] c].
Qed.

Ltac post_reduce := cbn [store reads awaits tick called fst snd].

(** One step of symbolic execution: decompose the program at the head of a
    [post] goal, splitting on whatever the program itself inspects. *)
Ltac post_step :=
  lazymatch goal with
  | |- post (bind _ _) _ _ _ => apply post_bind
  | |- post (ret _) _ _ _ => apply post_ret
  | |- post throw _ _ _ => apply post_throw
  | |- post (ask _) _ _ _ => apply post_ask
  | |- post now _ _ _ => apply post_now
  | |- post (try_catch _ _) _ _ _ => apply post_try_catch
  | |- post (await _) _ _ _ => apply post_await; post_reduce; intros ?
  | |- post (Lot_findOne _) _ _ _ => unfold Lot_findOne
  | |- post (User_findOne _) _ _ _ => unfold User_findOne
  | |- post (Lot_save _) _ _ _ => unfold Lot_save
  | |- post (User_save _) _ _ _ => unfold User_save
  | |- post (ReplacementRequest_save _) _ _ _ => unfold ReplacementRequest_save
  | |- post generateReplacementRequestId _ _ _ => unfold generateReplacementRequestId
  | |- post (installation_date _) _ _ _ => unfold installation_date
  | |- post (authenticate _ _) _ _ _ => unfold authenticate
  | |- post (authorize _ _ _) _ _ _ => unfold authorize
  | |- post (match ?x with _ => _ end) _ _ _ => destruct x eqn:?
  | |- post (let _ := _ in _) _ _ _ => cbv zeta
  | |- match (if ?b then _ else _) with _ => _ end => destruct b eqn:?
  | |- match ?x with _ => _ end => destruct x eqn:?
  end; post_reduce.

Ltac post_exec := repeat post_step.

(** Turn a goal about [run h e s] into a [post] goal for [h]. *)
Ltac by_execution :=
  lazymatch goal with
  | |- context [run ?h ?e ?s] =>
      pattern (fst (run h e s)), (snd (run h e s));
      lazymatch goal with
      | |- ?P _ _ => apply (post_run h e s P)
      end
  end.

(** ** Basic facts *)

Lemma truthy_Some (x : string) : x <> "" -> truthy (Some x) = true.
Proof.
  intros H. unfold truthy. now destruct (String.eqb_spec x "").
Qed.

Lemma parse_name (st : LotStatus.t) : LotStatus.parse (Some (LotStatus.name st)) = Some st.
Proof. now destruct st. Qed.

Lemma parse_inv (x : option string) (st : LotStatus.t) :
  LotStatus.parse x = Some st -> x = Some (LotStatus.name st).
Proof.
  destruct x as [v|]; [|discriminate]. unfold LotStatus.parse.
  repeat match goal with
         | |- context [String.eqb v ?lit] => destruct (String.eqb_spec v lit); [subst|]
         end; intros [= <-] || discriminate; reflexivity.
Qed.

Lemma name_inj (a b : LotStatus.t) : LotStatus.name a = LotStatus.name b -> a = b.
Proof. now destruct a, b. Qed.

Lemma store_ok_lot (s : Store) k l : store_ok s -> lots s !! k = Some l -> lot_id l = k.
Proof. intros [H _]. apply H. Qed.

Lemma store_ok_user (s : Store) k u : store_ok s -> users s !! k = Some u -> user_id u = k.
Proof. intros [_ H]. apply H. Qed.

Lemma store_ok_put_lot (s : Store) (l : Lot) : store_ok s -> store_ok (put_lot l s).
Proof.
  intros [Hl Hu]. split; [|exact Hu]. cbn.
  apply map_Forall_insert_2; [reflexivity | exact Hl].
Qed.

Lemma store_ok_put_user (s : Store) (u : User) : store_ok s -> store_ok (put_user u s).
Proof.
  intros [Hl Hu]. split; [exact Hl|]. cbn.
  apply map_Forall_insert_2; [reflexivity | exact Hu].
Qed.

Lemma store_ok_add_request (s : Store) r : store_ok s -> store_ok (add_request r s).
Proof. exact (fun H => H). Qed.

Lemma grows_refl (s : Store) : grows s s.
Proof. intros k l Hl. exists l. repeat split; [exact Hl | reflexivity | reflexivity]. Qed.

Lemma grows_trans (s1 s2 s3 : Store) : grows s1 s2 -> grows s2 s3 -> grows s1 s3.
Proof.
  intros H12 H23 k l Hl.
  destruct (H12 k l Hl) as (l2 & Hl2 & Ha & Ht).
  destruct (H23 k l2 Hl2) as (l3 & Hl3 & Ha' & Ht').
  exists l3. repeat split; [exact Hl3 | now transitivity (auditTrail l2)
                                      | now transitivity (qrTokens l2)].
Qed.

Lemma grows_put_lot (s : Store) (l l' : Lot) :
  lots s !! lot_id l' = Some l ->
  auditTrail l `prefix_of` auditTrail l' ->
  qrTokens l `prefix_of` qrTokens l' ->
  grows s (put_lot l' s).
Proof.
  intros Hl Ha Ht k l0 Hk. cbn. destruct (decide (lot_id l' = k)) as [<-|Hne].
  - rewrite lookup_insert_eq. exists l'. rewrite Hl in Hk. injection Hk as <-. auto.
  - rewrite lookup_insert_ne by exact Hne. exists l0. repeat split; [exact Hk | reflexivity..].
Qed.

Lemma grows_put_user (s s' : Store) (u : User) : grows s s' -> grows s (put_user u s').
Proof. exact (fun H => H). Qed.

Lemma grows_add_request (s s' : Store) r : grows s s' -> grows s (add_request r s').
Proof. exact (fun H => H). Qed.

Lemma grows_save (s s1 : Store) (l l' : Lot) :
  grows s s1 ->
  lots s1 !! lot_id l' = Some l ->
  auditTrail l `prefix_of` auditTrail l' ->
  qrTokens l `prefix_of` qrTokens l' ->
  grows s (put_lot l' s1).
Proof.
  intros Hg Hl Ha Ht. apply (grows_trans _ s1); [exact Hg|].
  now apply (grows_put_lot s1 l l').
Qed.

(** ** Every operation only extends trails and token lists *)

Ltac solve_store_ok :=
  repeat first [ apply store_ok_put_user | apply store_ok_put_lot
               | apply store_ok_add_request ];
  assumption.

Ltac solve_grows Hok :=
  repeat first [ apply grows_put_user | apply grows_add_request ];
  first
    [ apply grows_refl
    | match goal with
      | Hl : lots _ !! _ = Some ?l |- grows _ (put_lot _ _) =>
          apply (grows_save _ _ l);
          [ repeat apply grows_add_request; apply grows_refl
          | cbn; rewrite (store_ok_lot _ _ _ Hok Hl); exact Hl
          | cbn; first [reflexivity | apply prefix_app_r; reflexivity]
          | cbn; first [reflexivity | apply prefix_app_r; reflexivity] ]
      end ].

Lemma serve_grows (rq : Request) (s : Store) :
  store_ok s -> store_ok (snd (serve rq s)) /\ grows s (snd (serve rq s)).
Proof.
  intros Hok. unfold serve.
  apply (post_run _ _ s (fun _ s' => store_ok s' /\ grows s s')).
  destruct (operation rq); cbn [handle];
    unfold generate_qr, generate_qr_handler, get_lot, get_lot_handler,
           put_status, put_status_handler, install, install_handler,
           inspection, inspection_handler,
           replacement_request, replacement_request_handler;
    post_exec; cbv zeta; (split; [solve_store_ok | solve_grows Hok]).
Qed.

Lemma serve_all_grows (rqs : list Request) (s : Store) :
  store_ok s -> store_ok (serve_all rqs s) /\ grows s (serve_all rqs s).
Proof.
  revert s. induction rqs as [|rq rest IH]; intros s Hok; cbn [serve_all].
  - split; [exact Hok | apply grows_refl].
  - destruct (serve_grows rq s Hok) as [Hok1 Hg1].
    destruct (IH _ Hok1) as [Hok2 Hg2].
    split; [exact Hok2 | exact (grows_trans _ _ _ Hg1 Hg2)].
Qed.

(** ** What one operation does to a lot *)

Ltac unfold_routes :=
  unfold generate_qr, generate_qr_handler, get_lot, get_lot_handler,
         put_status, put_status_handler, install, install_handler,
         inspection, inspection_handler,
         replacement_request, replacement_request_handler.



(** ** Refusals and early faults commit nothing *)



(** ** Runs in which no awaited call rejects *)

(** Leaves of an execution that the hypotheses rule out. *)
Ltac key_of Hok :=
  match goal with
  | Hl : lots _ !! _ = Some _ |- _ => rewrite (store_ok_lot _ _ _ Hok Hl) in *
  end.

Ltac no_fault Hno :=
  match goal with
  | H : throws _ _ = true |- _ => rewrite Hno in H; discriminate H
  end.

Lemma authorized (r : UserRole) (roles : list UserRole) :
  r ∈ roles -> negb (bool_decide (r ∈ roles)) = false.
Proof. intros H. now rewrite bool_decide_true. Qed.

Lemma not_authorized (r : UserRole) (roles : list UserRole) :
  r ∉ roles -> negb (bool_decide (r ∈ roles)) = true.
Proof. intros H. now rewrite bool_decide_false. Qed.

Lemma generate_qr_issues e s lotId owner lot :
  store_ok s ->
  lots s !! toUpperCase lotId = Some lot ->
  role owner = vendor ->
  vendorId lot = user_id owner ->
  (forall k, throws e k = false) ->
  let expires := clock e 0 + day_ms in
  let qrToken := String.substring 0 8 (uuidv4 e) in
  let r := fst (run (generate_qr lotId (Some owner)) e s) in
  let s' := snd (run (generate_qr lotId (Some owner)) e s) in
  exists lot',
    r = ok 200 (QrData (lot_id lot) (stringify e lot) (toDataURL e (stringify e lot))
                  qrToken (toISOString e expires))
           "Ephemeral QR code generated successfully"
    /\ lots s' = <[toUpperCase lotId := lot']> (lots s)
    /\ requests s' = requests s
    /\ qrTokens lot' =
         qrTokens lot ++ [{| token := qrToken; generatedAt := clock e 1;
                             expiresAt := expires; generatedBy := user_id owner |}]
    /\ auditTrail lot' =
         auditTrail lot ++ [{| timestamp := clock e 2; actorId := user_id owner;
                               actorName := full_name owner; action := "qr_generated";
                               details := "Ephemeral QR code generated for lot";
                               metadata := [("qrToken", JStr qrToken);
                                            ("expiresAt", JStr (toISOString e expires))] |}]
    /\ status lot' = status lot /\ qrCode lot' = qrCode lot /\ lot_id lot' = lot_id lot.
Proof.
  intros Hok Hlot Hrole Hown Hno. cbv zeta. by_execution.
  unfold generate_qr, authenticate, authorize.
  rewrite authorized by (rewrite Hrole; apply list_elem_of_here).
  unfold generate_qr_handler. post_exec; cbv zeta; try no_fault Hno; simplify_eq.
  all: try (rewrite Hown, String.eqb_refl in *; discriminate).
  all: eexists; cbn [lots put_user put_lot requests lot_id set_lot_updatedAt push_audit
                     push_token qrTokens auditTrail status qrCode];
       key_of Hok; repeat split; cbn; eauto using store_ok_lot.
Qed.

Lemma put_status_updates e s id body actor lot st :
  store_ok s ->
  lots s !! toUpperCase id = Some lot ->
  role actor = depot_staff ->
  LotStatus.parse (b_status body) = Some st ->
  (forall k, throws e k = false) ->
  let r := fst (run (put_status id body (Some actor)) e s) in
  let s' := snd (run (put_status id body (Some actor)) e s) in
  exists lot',
    r = ok 200 (LotData lot') "Lot status updated successfully"
    /\ lots s' = <[toUpperCase id := lot']> (lots s)
    /\ requests s' = requests s
    /\ status lot' = st
    /\ auditTrail lot' =
         auditTrail lot ++ [{| timestamp := clock e 0; actorId := user_id actor;
                               actorName := full_name actor; action := "status_updated";
                               details := "Status changed from "
                                          +:+ LotStatus.name (status lot)
                                          +:+ " to " +:+ LotStatus.name st;
                               metadata :=
                                 [("previousStatus", JStr (LotStatus.name (status lot)));
                                  ("newStatus", JStr (LotStatus.name st));
                                  ("notes", jopt (b_notes body));
                                  ("sampleCheck", b_sampleCheck body)] |}]
    /\ qrTokens lot' = qrTokens lot
    /\ match users s !! user_id actor with
       | Some u =>
           exists u', users s' = <[user_id actor := u']> (users s)
             /\ history u' =
                  history u ++ [{| h_timestamp := clock e 3; h_action := "update_lot_status";
                                   targetType := "lot"; targetId := toUpperCase id;
                                   h_details := "Updated lot " +:+ lotNumber lot
                                                +:+ " status to " +:+ LotStatus.name st;
                                   h_metadata :=
                                     [("previousStatus", JStr (LotStatus.name st));
                                      ("newStatus", JStr (LotStatus.name st));
                                      ("notes", jopt (b_notes body));
                                      ("sampleCheck", b_sampleCheck body)] |}]
       | None => users s' = users s
       end.
Proof.
  intros Hok Hlot Hrole Hst Hno. cbv zeta. by_execution.
  unfold put_status, authenticate, authorize.
  rewrite authorized by (rewrite Hrole; apply list_elem_of_here).
  unfold put_status_handler. rewrite Hst.
  post_exec; cbv zeta; try no_fault Hno; simplify_eq.
  all: cbn [users put_lot] in *.
  all: eexists; cbn [lots users put_user put_lot requests lot_id set_lot_updatedAt push_audit
                     set_status push_token qrTokens auditTrail status qrCode lotNumber];
       key_of Hok; repeat split; cbn; eauto using store_ok_lot.
  all: match goal with Hu : users _ !! _ = _ |- _ => rewrite Hu end.
  - eexists. match goal with Hu : users _ !! _ = Some _ |- _ =>
               rewrite (store_ok_user _ _ _ Hok Hu) end.
    split; reflexivity.
  - reflexivity.
Qed.

Lemma put_status_invalid e s id body actor :
  role actor = depot_staff ->
  LotStatus.parse (b_status body) = None ->
  run (put_status id body (Some actor)) e s = (InvalidStatus, s).
Proof.
  intros Hrole Hst.
  unfold put_status, authenticate, authorize.
  rewrite authorized by (rewrite Hrole; apply list_elem_of_here).
  unfold put_status_handler. rewrite Hst. reflexivity.
Qed.

(** [authorize] turns away every role that is not listed, before the
    handler runs. *)
Lemma authorize_denies (roles : list UserRole) (actor : User) next e s :
  role actor ∉ roles ->
  Forbidden (fst (run (authenticate (Some actor)
                         (fun u => authorize roles (Some u) next)) e s))
  /\ snd (run (authenticate (Some actor)
                 (fun u => authorize roles (Some u) next)) e s) = s.
Proof.
  intros Hrole. unfold authenticate, authorize.
  rewrite not_authorized by exact Hrole. now split.
Qed.

Lemma get_lot_presented e s lotId tok actor lot :
  tok <> "" ->
  lots s !! toUpperCase lotId = Some lot ->
  throws e 0%nat = false ->
  run (get_lot lotId (Some tok) (Some actor)) e s =
    (match find_token tok lot with
     | None => TokenNotFound
     | Some q => if clock e 0%nat >? expiresAt q then TokenExpired
                 else ok 200 (LotData lot) "Lot retrieved successfully"
     end, s).
Proof.
  intros Htok Hlot Hthrow.
  unfold get_lot, authenticate, get_lot_handler, run, try_catch, bind, Lot_findOne, await.
  cbn [store awaits reads]. rewrite Hthrow, Hlot, (truthy_Some _ Htok). cbn [default id from_option].
  destruct (find_token tok lot) as [q|]; [|reflexivity].
  unfold now. cbn [store awaits reads]. now destruct (clock e 0%nat >? expiresAt q).
Qed.



Lemma replacement_request_missing e s lotId body actor :
  role actor ∈ requester_roles ->
  truthy (b_reason body) = false \/ truthy (b_description body) = false ->
  run (replacement_request lotId body (Some actor)) e s = (MissingFields, s).
Proof.
  intros Hrole Hmiss.
  unfold replacement_request, authenticate, authorize.
  rewrite authorized by exact Hrole.
  unfold replacement_request_handler.
  assert (negb (truthy (b_reason body)) || negb (truthy (b_description body)) = true)
    as -> by (destruct Hmiss as [-> | ->]; [reflexivity | apply orb_true_r]).
  reflexivity.
Qed.

Lemma fresh_id (id : string) (rs : list ReplacementRequest) :
  Forall (fun x => req_id x <> id) rs ->
  existsb (fun x => String.eqb (req_id x) id) rs = false.
Proof.
  induction 1 as [|x rs Hx _ IH]; [reflexivity|]. cbn.
  rewrite IH. now destruct (String.eqb_spec (req_id x) id).
Qed.

Lemma trimmed_nonempty (x : string) : trim x <> "" -> x <> "".
Proof. intros H ->. now apply H. Qed.

Lemma reason_nonempty (x : string) : x ∈ reasons -> x <> "".
Proof.
  unfold reasons. rewrite !elem_of_cons, elem_of_nil.
  intros H ->. repeat destruct H as [H|H]; done.
Qed.

Lemma valid_request_intro (r : ReplacementRequest) :
  requestedByRole r ∈ requester_roles ->
  reason r ∈ reasons ->
  description r <> "" ->
  priority r ∈ priorities ->
  valid_request r = true.
Proof.
  intros Hrole Hreason Hdesc Hprio. unfold valid_request.
  rewrite !bool_decide_true by assumption.
  now destruct (String.eqb_spec (description r) "").
Qed.

Lemma replacement_request_creates e s lotId body actor lot why what :
  store_ok s ->
  lots s !! toUpperCase lotId = Some lot ->
  role actor ∈ requester_roles ->
  b_reason body = Some why -> why ∈ reasons ->
  b_description body = Some what -> trim what <> "" ->
  default "medium" (b_priority body) ∈ priorities ->
  (forall k, throws e k = false) ->
  let rid := toUpperCase ("REQ" +:+ pretty (clock e 0)) in
  Forall (fun x => req_id x <> rid) (requests s) ->
  let r := fst (run (replacement_request lotId body (Some actor)) e s) in
  let s' := snd (run (replacement_request lotId body (Some actor)) e s) in
  exists created lot',
    r = ok 201 (RequestData created) "Replacement request created successfully"
    /\ requests s' = requests s ++ [created]
    /\ req_id created = rid
    /\ req_status created = RequestStatus.pending
    /\ req_lotId created = toUpperCase lotId
    /\ requestedBy created = user_id actor
    /\ requestedByRole created = role actor
    /\ reason created = why
    /\ description created = trim what
    /\ lots s' = <[toUpperCase lotId := lot']> (lots s)
    /\ status lot' = status lot
    /\ auditTrail lot' =
         auditTrail lot ++ [{| timestamp := clock e 2; actorId := user_id actor;
                               actorName := full_name actor;
                               action := "replacement_requested";
                               details := "Replacement request created - reason: " +:+ why;
                               metadata :=
                                 [("requestId", JStr rid); ("reason", JStr why);
                                  ("description", JStr what);
                                  ("priority", JStr (default "medium" (b_priority body)));
                                  ("photos", jphotos (r_photos body))] |}].
Proof.
  cbv zeta. intros Hok Hlot Hrole Hwhy Hreason Hwhat Hdesc Hprio Hno Hfresh.
  by_execution.
  unfold replacement_request, authenticate, authorize.
  rewrite authorized by exact Hrole.
  unfold replacement_request_handler. rewrite Hwhy, Hwhat.
  rewrite !truthy_Some by auto using reason_nonempty, trimmed_nonempty.
  cbn [negb orb].
  post_exec; cbv zeta; try no_fault Hno; simplify_eq.
  all: try match goal with
           | Hv : valid_request _ = false |- _ =>
               rewrite valid_request_intro in Hv by assumption; discriminate Hv
           | Hx : existsb _ _ = true |- _ =>
               cbn [req_id] in Hx; rewrite (fresh_id _ _ Hfresh) in Hx; discriminate Hx
           end.
  all: do 2 eexists;
       cbn [lots users put_user put_lot add_request requests lot_id set_lot_updatedAt
            push_audit qrTokens auditTrail status];
       key_of Hok; repeat split; cbn; eauto using store_ok_lot.
Qed.

(** ** Token lists *)

Lemma find_token_app (tok : string) (l l' : Lot) (added : list QrToken) :
  qrTokens l' = qrTokens l ++ added ->
  forall q, find_token tok l = Some q -> find_token tok l' = Some q.
Proof.
  unfold find_token. intros -> q. induction (qrTokens l) as [|t ts IH]; cbn; [discriminate|].
  destruct (String.eqb (token t) tok); [exact (fun H => H) | exact IH].
Qed.

Lemma find_token_new (tok : string) (l l' : Lot) (tk : QrToken) :
  qrTokens l' = qrTokens l ++ [tk] -> token tk = tok ->
  find_token tok l = None -> find_token tok l' = Some tk.
Proof.
  unfold find_token. intros -> <-. induction (qrTokens l) as [|t ts IH]; cbn.
  - now rewrite String.eqb_refl.
  - destruct (String.eqb (token t) (token tk)); [discriminate | exact IH].
Qed.

Lemma get_lot_faulted e s lotId tok actor :
  throws e 0%nat = true ->
  run (get_lot lotId tok (Some actor)) e s = (fail 500 "Server error retrieving lot", s).
Proof.
  intros Hthrow.
  unfold get_lot, authenticate, get_lot_handler, run, try_catch, bind, Lot_findOne, await.
  cbn [store awaits reads]. now rewrite Hthrow.
Qed.

Lemma gtb_gt (a b : Z) : (a >? b) = true <-> a > b.
Proof. rewrite Z.gtb_ltb, Z.ltb_lt. lia. Qed.

Lemma gtb_le (a b : Z) : (a >? b) = false <-> a <= b.
Proof. rewrite Z.gtb_ltb, Z.ltb_ge. lia. Qed.


Lemma parse_outside (x : option string) :
  (forall st, x <> Some (LotStatus.name st)) -> LotStatus.parse x = None.
Proof.
  intros Hout. destruct (LotStatus.parse x) as [st|] eqn:Hparse; [|reflexivity].
  now apply parse_inv, Hout in Hparse.
Qed.

Lemma generate_qr_not_owner e s lotId actor lot :
  lots s !! toUpperCase lotId = Some lot ->
  throws e 0%nat = false ->
  role actor = vendor ->
  vendorId lot <> user_id actor ->
  run (generate_qr lotId (Some actor)) e s = (NotOwner, s).
Proof.
  intros Hlot Hthrow Hrole Hother.
  unfold generate_qr, authenticate, authorize.
  rewrite authorized by (rewrite Hrole; apply list_elem_of_here).
  unfold generate_qr_handler, run, try_catch, bind, Lot_findOne, await.
  cbn [store awaits reads]. rewrite Hthrow, Hlot.
  now destruct (String.eqb_spec (vendorId lot) (user_id actor)).
Qed.

Lemma prefix_app_inv {A} (l1 l2 : list A) : l1 `prefix_of` l2 -> exists k, l2 = l1 ++ k.
Proof. exact (fun H => H). Qed.

(** ** The scenario database *)

Import Scenario.

Lemma db_ok : store_ok db.
Proof.
  split; cbn [lots users db].
  - apply map_Forall_singleton. reflexivity.
  - repeat (apply map_Forall_insert_2; [reflexivity|]). apply map_Forall_empty.
Qed.

Lemma issued_db_lot : lots issued_db !! "LOT001" = Some issued_lot.
Proof. vm_compute. reflexivity. Qed.

Lemma world_calm t k : throws (world t []) k = false.
Proof. reflexivity. Qed.

Lemma issued_db_ok : store_ok issued_db.
Proof.
  exact (proj1 (serve_grows {| sender := Some V1; operation := GenerateQr "LOT001";
                               env := world 1000 [] |} db db_ok)).
Qed.

(** The scenarios of the specification, run on the model. *)

Example scenario_acceptance :
  let s' := snd (serve (acceptance []) db) in
  (status <$> lots s' !! "LOT001") = Some LotStatus.accepted
  /\ (map action <$> (auditTrail <$> lots s' !! "LOT001")) = Some ["status_updated"]
  /\ (map (fun entry => field "previousStatus" (metadata entry))
        <$> (auditTrail <$> lots s' !! "LOT001")) = Some [JStr "pending"].
Proof. vm_compute. repeat split. Qed.

Example scenario_workflow :
  (map action <$> (auditTrail <$> lots (serve_all workflow db) !! "LOT001"))
  = Some ["qr_generated"; "status_updated"; "installation_recorded"; "replacement_requested"]
  /\ (status <$> lots (serve_all workflow db) !! "LOT001") = Some LotStatus.accepted
  /\ map req_status (requests (serve_all workflow db)) = [RequestStatus.pending]
  /\ map code (serve_trace workflow db) = [200; 200; 200; 201].
Proof. vm_compute. repeat split. Qed.

Example scenario_expired_token :
  fst (serve (scan (1000 + day_ms + 1)) issued_db) = TokenExpired
  /\ fst (run (get_lot "LOT001" (Some "00000000") (Some D1)) (world 2000 []) issued_db)
     = TokenNotFound.
Proof. vm_compute. repeat split. Qed.

(** * The claims *)

(** C1 (as the code has it).  A presented token that is not in the lot's
    token set is refused with TokenNotFound.  One that is in the set is
    refused with TokenExpired exactly when the check time is strictly after
    its expiry, and is valid exactly when the check time is at or before its
    expiry; the token meant is the one [find] returns, the first of the set
    with that value.  A token issued by generate-qr with a value that is not
    yet in the lot's token set expires 24 hours after the clock reading
    taken at issuance, so it is valid at every check up to and including
    that instant and expired at every later one. *)
Theorem token_validity_window e s lotId tok checker lot :
  tok <> "" ->
  lots s !! toUpperCase lotId = Some lot ->
  throws e 0%nat = false ->
  let r := fst (run (get_lot lotId (Some tok) (Some checker)) e s) in
  let t' := clock e 0%nat in
  (find_token tok lot = None -> r = TokenNotFound)
  /\ (forall q, find_token tok lot = Some q ->
        (r = TokenExpired <-> t' > expiresAt q)
        /\ (r = ok 200 (LotData lot) "Lot retrieved successfully" <-> t' <= expiresAt q))
  /\ (forall ei s0 owner lot0,
        store_ok s0 ->
        lots s0 !! toUpperCase lotId = Some lot0 ->
        role owner = vendor ->
        vendorId lot0 = user_id owner ->
        (forall k, throws ei k = false) ->
        s = snd (run (generate_qr lotId (Some owner)) ei s0) ->
        tok = String.substring 0 8 (uuidv4 ei) ->
        find_token tok lot0 = None ->
        (success r = true <-> t' <= clock ei 0%nat + day_ms)
        /\ (r = TokenExpired <-> t' > clock ei 0%nat + day_ms)).
Proof.
  intros Htok Hlot Hthrow r t'. subst r t'.
  rewrite (get_lot_presented e s lotId tok checker lot Htok Hlot Hthrow). cbn [fst].
  assert (Hfound : forall q, find_token tok lot = Some q ->
            ((if clock e 0%nat >? expiresAt q then TokenExpired
              else ok 200 (LotData lot) "Lot retrieved successfully") = TokenExpired
             <-> clock e 0%nat > expiresAt q)
            /\ ((if clock e 0%nat >? expiresAt q then TokenExpired
                 else ok 200 (LotData lot) "Lot retrieved successfully")
                = ok 200 (LotData lot) "Lot retrieved successfully"
                <-> clock e 0%nat <= expiresAt q)).
  { intros q _. destruct (clock e 0%nat >? expiresAt q) eqn:Hcmp.
    - apply gtb_gt in Hcmp. split; split; intros H; try reflexivity; try lia; discriminate H.
    - apply gtb_le in Hcmp. split; split; intros H; try reflexivity; try lia; discriminate H. }
  split; [|split].
  - now intros ->.
  - intros q Hq. rewrite Hq. exact (Hfound q Hq).
  - intros ei s0 owner lot0 Hok Hlot0 Hrole Hown Hno -> -> Hnew.
    destruct (generate_qr_issues ei s0 lotId owner lot0 Hok Hlot0 Hrole Hown Hno)
      as (lot' & _ & Hlots & _ & Htokens & _).
    rewrite Hlots, lookup_insert_eq in Hlot. injection Hlot as <-.
    rewrite (find_token_new (String.substring 0 8 (uuidv4 ei)) lot0 lot' _ Htokens eq_refl Hnew).
    cbn [expiresAt].
    destruct (clock e 0%nat >? clock ei 0%nat + day_ms) eqn:Hcmp.
    + apply gtb_gt in Hcmp. split; split; intros H; try reflexivity; try lia; discriminate H.
    + apply gtb_le in Hcmp. split; split; intros H; try reflexivity; try lia; discriminate H.
Qed.

(** C1, counterexample to the claim as stated: the token V1 was issued at
    time 1000 expires at 1000 + 24h; presented at exactly that instant
    (t' >= expiry) it is not refused with TokenExpired but accepted. *)
Lemma token_valid_at_expiry_instant :
  lots issued_db !! toUpperCase "LOT001" = Some issued_lot
  /\ find_token "a1b2c3d4" issued_lot = Some issued_token
  /\ clock (world (1000 + day_ms) []) 0%nat >= expiresAt issued_token
  /\ fst (run (get_lot "LOT001" (Some "a1b2c3d4") (Some D1)) (world (1000 + day_ms) []) issued_db)
     = ok 200 (LotData issued_lot) "Lot retrieved successfully".
Proof.
  split; [vm_compute; reflexivity|]. split; [reflexivity|].
  split; [vm_compute; discriminate|]. vm_compute. reflexivity.
Qed.

(** C1, witness: the issued token checked at time 5000. *)
Lemma token_validity_window_witness :
  "a1b2c3d4" <> ""
  /\ lots issued_db !! toUpperCase "LOT001" = Some issued_lot
  /\ throws (world 5000 []) 0%nat = false
  /\ (fst (run (get_lot "LOT001" (Some "a1b2c3d4") (Some D1)) (world 5000 []) issued_db)
      = ok 200 (LotData issued_lot) "Lot retrieved successfully"
      <-> clock (world 5000 []) 0%nat <= expiresAt issued_token)
  /\ (fst (run (get_lot "LOT001" (Some "a1b2c3d4") (Some D1)) (world 5000 []) issued_db)
      = TokenExpired
      <-> clock (world 5000 []) 0%nat > clock (world 1000 []) 0%nat + day_ms).
Proof.
  assert (H1 : "a1b2c3d4" <> "") by discriminate.
  assert (H2 : lots issued_db !! toUpperCase "LOT001" = Some issued_lot)
    by (vm_compute; reflexivity).
  assert (H3 : throws (world 5000 []) 0%nat = false) by reflexivity.
  split; [exact H1|]. split; [exact H2|]. split; [exact H3|].
  destruct (token_validity_window (world 5000 []) issued_db "LOT001" "a1b2c3d4" D1 issued_lot
              H1 H2 H3) as (_ & Hfound & Hissued).
  split; [exact (proj2 (Hfound issued_token eq_refl))|].
  refine (proj2 (Hissued (world 1000 []) db V1 LOT001 db_ok _ _ _ _ _ _ _));
    first [ reflexivity | intros k; reflexivity | vm_compute; reflexivity ].
Defined.

(** C2.  For a depot-staff actor, a lot in any status and any new status
    of the closed set, the transition succeeds when no store call rejects:
    the stored lot gets the new status and exactly one more audit entry,
    tagged status_updated, whose metadata records the prior status as
    previousStatus, the new one as newStatus, the notes supplied (the
    string itself; undefined when none were sent) and the sample check
    supplied.  A new status outside the closed set is answered
    InvalidStatus and nothing is written. *)
Theorem status_transition e s id body actor lot :
  store_ok s ->
  lots s !! toUpperCase id = Some lot ->
  role actor = depot_staff ->
  let r := fst (run (put_status id body (Some actor)) e s) in
  let s' := snd (run (put_status id body (Some actor)) e s) in
  (forall st,
     b_status body = Some (LotStatus.name st) ->
     (forall k, throws e k = false) ->
     code r = 200 /\ success r = true
     /\ exists lot' entry,
          lots s' = <[toUpperCase id := lot']> (lots s)
          /\ status lot' = st
          /\ auditTrail lot' = auditTrail lot ++ [entry]
          /\ action entry = "status_updated"
          /\ actorId entry = user_id actor
          /\ field "previousStatus" (metadata entry) = JStr (LotStatus.name (status lot))
          /\ field "newStatus" (metadata entry) = JStr (LotStatus.name st)
          /\ (forall n, b_notes body = Some n ->
                field "notes" (metadata entry) = JStr n)
          /\ (b_notes body = None -> field "notes" (metadata entry) = JUndefined)
          /\ field "sampleCheck" (metadata entry) = b_sampleCheck body)
  /\ ((forall st, b_status body <> Some (LotStatus.name st)) ->
      r = InvalidStatus /\ s' = s).
Proof.
  intros Hok Hlot Hrole r s'. subst r s'. split.
  - intros st Hst Hno.
    destruct (put_status_updates e s id body actor lot st Hok Hlot Hrole) as
      (lot' & -> & Hlots & _ & Hstatus & Htrail & _); [now rewrite Hst, parse_name | exact Hno |].
    do 2 (split; [reflexivity|]). exists lot'. eexists.
    split; [exact Hlots|]. split; [exact Hstatus|]. split; [exact Htrail|].
    cbn. do 4 (split; [reflexivity|]).
    split; [intros n Hn; now rewrite Hn|]. split; [intros Hn; now rewrite Hn | reflexivity].
  - intros Hout.
    rewrite (put_status_invalid e s id body actor Hrole (parse_outside _ Hout)). now split.
Qed.

(** C2, witness: D1 accepts LOT001; D1 asks for a status outside the set. *)
Lemma status_transition_witness :
  store_ok db
  /\ lots db !! toUpperCase "LOT001" = Some LOT001
  /\ role D1 = depot_staff
  /\ code (fst (run (put_status "LOT001" accept (Some D1)) (world 1000 []) db)) = 200
  /\ (exists lot' entry,
        lots (snd (run (put_status "LOT001" accept (Some D1)) (world 1000 []) db))
        = <[toUpperCase "LOT001" := lot']> (lots db)
        /\ auditTrail lot' = auditTrail LOT001 ++ [entry]
        /\ field "notes" (metadata entry) = JStr "sample ok")
  /\ (fst (run (put_status "LOT001"
                  {| b_status := Some "archived"; b_notes := None;
                     b_sampleCheck := JUndefined |} (Some D1)) (world 1000 []) db)
      = InvalidStatus).
Proof.
  assert (H2 : lots db !! toUpperCase "LOT001" = Some LOT001) by (vm_compute; reflexivity).
  split; [exact db_ok|]. split; [exact H2|]. split; [reflexivity|].
  destruct (proj1 (status_transition (world 1000 []) db "LOT001" accept D1 LOT001
                     db_ok H2 eq_refl)
              LotStatus.accepted eq_refl (world_calm 1000))
    as (Hcode & _ & lot' & entry & Hlots & _ & Htrail & _ & _ & _ & _ & Hnotes & _).
  split; [exact Hcode|]. split.
  - exists lot', entry. split; [exact Hlots|]. split; [exact Htrail|].
    exact (Hnotes "sample ok" eq_refl).
  - refine (proj1 (proj2 (status_transition (world 1000 []) db "LOT001" _ D1 LOT001
                            db_ok H2 eq_refl) _)).
    intros st. destruct st; discriminate.
Defined.




(** C4.  Whatever the lot and its current status, a status change asked by
    an actor whose role is not depot-staff is answered 403 and leaves the
    database, hence the lot, as it was. *)
Theorem only_depot_staff_changes_status e s id body actor :
  role actor <> depot_staff ->
  Forbidden (fst (run (put_status id body (Some actor)) e s))
  /\ snd (run (put_status id body (Some actor)) e s) = s.
Proof.
  intros Hrole. apply authorize_denies.
  rewrite list_elem_of_singleton. exact Hrole.
Qed.

(** C4, witness: the vendor V1 tries to accept LOT001. *)
Lemma only_depot_staff_changes_status_witness :
  role V1 <> depot_staff
  /\ Forbidden (fst (run (put_status "LOT001" accept (Some V1)) (world 1000 []) db))
  /\ snd (run (put_status "LOT001" accept (Some V1)) (world 1000 []) db) = db.
Proof.
  assert (H : role V1 <> depot_staff) by discriminate.
  split; [exact H|].
  exact (only_depot_staff_changes_status (world 1000 []) db "LOT001" accept V1 H).
Defined.

(** C5.  Only the vendor who owns a lot can issue a token for it.  A
    request by any other role is answered 403 by the role gate, and a
    request by a vendor who is not the lot's owner is answered 403 by the
    ownership check; neither writes anything.  When the owner issues and no
    store call rejects, the lot's token set gains one token carrying its
    issuance time, its expiry (24 hours after the clock reading) and its
    issuer, and the audit trail gains one entry tagged qr_generated whose
    metadata holds the token value and the expiry; the rendered image is in
    neither, nor in the lot's qrCode field. *)
Theorem issuance_restricted_to_owner e s lotId actor lot :
  store_ok s ->
  lots s !! toUpperCase lotId = Some lot ->
  throws e 0%nat = false ->
  let r := fst (run (generate_qr lotId (Some actor)) e s) in
  let s' := snd (run (generate_qr lotId (Some actor)) e s) in
  (role actor <> vendor -> Forbidden r /\ s' = s)
  /\ (role actor = vendor -> vendorId lot <> user_id actor -> Forbidden r /\ s' = s)
  /\ (role actor = vendor -> vendorId lot = user_id actor ->
      (forall k, throws e k = false) ->
      code r = 200 /\ success r = true
      /\ exists lot' issued entry,
           lots s' = <[toUpperCase lotId := lot']> (lots s)
           /\ qrTokens lot' = qrTokens lot ++ [issued]
           /\ token issued = String.substring 0 8 (uuidv4 e)
           /\ generatedAt issued = clock e 1%nat
           /\ expiresAt issued = clock e 0%nat + day_ms
           /\ generatedBy issued = user_id actor
           /\ auditTrail lot' = auditTrail lot ++ [entry]
           /\ action entry = "qr_generated"
           /\ metadata entry = [("qrToken", JStr (token issued));
                                ("expiresAt", JStr (toISOString e (expiresAt issued)))]
           /\ qrCode lot' = qrCode lot).
Proof.
  intros Hok Hlot Hthrow r s'. subst r s'. split; [|split].
  - intros Hrole. apply authorize_denies. rewrite list_elem_of_singleton. exact Hrole.
  - intros Hrole Hother.
    rewrite (generate_qr_not_owner e s lotId actor lot Hlot Hthrow Hrole Hother).
    repeat split.
  - intros Hrole Hown Hno.
    destruct (generate_qr_issues e s lotId actor lot Hok Hlot Hrole Hown Hno)
      as (lot' & -> & Hlots & _ & Htokens & Htrail & _ & Hqr & _).
    do 2 (split; [reflexivity|]). exists lot'. do 2 eexists.
    split; [exact Hlots|]. split; [exact Htokens|]. do 4 (split; [reflexivity|]).
    split; [exact Htrail|]. do 2 (split; [reflexivity|]). exact Hqr.
Qed.

(** C5, witness: V2, who does not own LOT001, and V1, who does. *)
Lemma issuance_restricted_to_owner_witness :
  store_ok db
  /\ lots db !! toUpperCase "LOT001" = Some LOT001
  /\ throws (world 1000 []) 0%nat = false
  /\ (Forbidden (fst (run (generate_qr "LOT001" (Some V2)) (world 1000 []) db))
      /\ snd (run (generate_qr "LOT001" (Some V2)) (world 1000 []) db) = db)
  /\ code (fst (run (generate_qr "LOT001" (Some V1)) (world 1000 []) db)) = 200.
Proof.
  assert (H2 : lots db !! toUpperCase "LOT001" = Some LOT001) by (vm_compute; reflexivity).
  split; [exact db_ok|]. split; [exact H2|]. split; [reflexivity|]. split.
  - refine (proj1 (proj2 (issuance_restricted_to_owner (world 1000 []) db "LOT001" V2 LOT001
                            db_ok H2 eq_refl)) eq_refl _).
    discriminate.
  - exact (proj1 (proj2 (proj2 (issuance_restricted_to_owner (world 1000 []) db "LOT001" V1
                                  LOT001 db_ok H2 eq_refl))
                    eq_refl eq_refl (world_calm 1000))).
Defined.

(** C6 (as the code has it).  Issuing a token never touches the tokens a
    lot already has: after
    any generate-qr request, whatever its outcome, every lot is still
    stored with its earlier tokens first and unmodified, so an earlier
    token is found as before and a validation of it is answered exactly as
    it would have been without the issuance.  When the issuance succeeds
    with a token value not yet in the set, the new token is found as well,
    with its own expiry; when the value repeats one of the set, the earlier
    token is the one found, before and after. *)
Theorem issuing_keeps_earlier_tokens e s lotId req_user k lot :
  store_ok s ->
  lots s !! k = Some lot ->
  let s' := snd (run (generate_qr lotId req_user) e s) in
  exists lot' added,
    lots s' !! k = Some lot'
    /\ qrTokens lot' = qrTokens lot ++ added
    /\ (forall tok q, find_token tok lot = Some q -> find_token tok lot' = Some q)
    /\ (forall e2 lotId2 tok checker q,
          toUpperCase lotId2 = k -> tok <> "" -> find_token tok lot = Some q ->
          let before := fst (run (get_lot lotId2 (Some tok) (Some checker)) e2 s) in
          let after := fst (run (get_lot lotId2 (Some tok) (Some checker)) e2 s') in
          code after = code before /\ success after = success before
          /\ message after = message before)
    /\ (forall owner,
          req_user = Some owner -> k = toUpperCase lotId ->
          role owner = vendor -> vendorId lot = user_id owner ->
          (forall n, throws e n = false) ->
          find_token (String.substring 0 8 (uuidv4 e)) lot = None ->
          exists issued,
            added = [issued]
            /\ find_token (String.substring 0 8 (uuidv4 e)) lot' = Some issued
            /\ expiresAt issued = clock e 0%nat + day_ms).
Proof.
  intros Hok Hlot s'.
  destruct (serve_grows {| sender := req_user; operation := GenerateQr lotId; env := e |} s Hok)
    as [_ Hgrows].
  destruct (Hgrows k lot Hlot) as (lot' & Hlot' & _ & Htokens).
  unfold serve in Hlot'. cbn [handle operation sender env] in Hlot'. fold s' in Hlot'.
  apply prefix_app_inv in Htokens. destruct Htokens as [added Htokens].
  exists lot', added. split; [exact Hlot'|]. split; [exact Htokens|]. split; [|split].
  - intros tok q. exact (find_token_app tok lot lot' added Htokens q).
  - intros e2 lotId2 tok checker q Hk Htok Hq. subst k. cbv zeta.
    destruct (throws e2 0%nat) eqn:Hthrow.
    + rewrite !get_lot_faulted by exact Hthrow. repeat split.
    + rewrite (get_lot_presented e2 s lotId2 tok checker lot Htok Hlot Hthrow).
      rewrite (get_lot_presented e2 s' lotId2 tok checker lot' Htok Hlot' Hthrow).
      rewrite Hq, (find_token_app tok lot lot' added Htokens q Hq). cbn [fst].
      destruct (clock e2 0%nat >? expiresAt q); repeat split.
  - intros owner -> -> Hrole Hown Hno Hnew.
    destruct (generate_qr_issues e s lotId owner lot Hok Hlot Hrole Hown Hno)
      as (lot2 & _ & Hlots & _ & Htokens2 & _).
    unfold s' in Hlot'. rewrite Hlots, lookup_insert_eq in Hlot'. injection Hlot' as ->.
    rewrite Htokens2 in Htokens. apply app_inv_head in Htokens. subst added.
    eexists. split; [reflexivity|]. split; [|reflexivity].
    exact (find_token_new _ lot lot' _ Htokens2 eq_refl Hnew).
Qed.

(** C6, counterexample to the claim as stated: the new token is not always
    valid until its own expiry.  Two days after the first issuance V1
    issues again and the same eight characters are drawn: both tokens are
    stored, the second one expires a day later, but a check made ten
    milliseconds after its issuance finds the first token and answers that
    the token has expired. *)
Lemma repeated_value_expires_with_first :
  let reissue := world (1000 + 2 * day_ms) [] in
  let s1 := snd (run (generate_qr "LOT001" (Some V1)) reissue issued_db) in
  success (fst (run (generate_qr "LOT001" (Some V1)) reissue issued_db)) = true
  /\ (qrTokens <$> lots s1 !! "LOT001")
     = Some [issued_token;
             {| token := "a1b2c3d4"; generatedAt := 1000 + 2 * day_ms + 1;
                expiresAt := 1000 + 3 * day_ms; generatedBy := "V1" |}]
  /\ clock (world (1000 + 2 * day_ms + 10) []) 0%nat < 1000 + 3 * day_ms
  /\ fst (run (get_lot "LOT001" (Some "a1b2c3d4") (Some D1))
             (world (1000 + 2 * day_ms + 10) []) s1)
     = TokenExpired.
Proof.
  cbv zeta. repeat split; vm_compute; reflexivity.
Qed.

(** C6, witness: V1 issues a second token for LOT001. *)
Lemma issuing_keeps_earlier_tokens_witness :
  store_ok issued_db
  /\ lots issued_db !! "LOT001" = Some issued_lot
  /\ exists lot' second,
       lots (snd (run (generate_qr "LOT001" (Some V1)) later issued_db)) !! "LOT001"
         = Some lot'
       /\ qrTokens lot' = qrTokens issued_lot ++ [second]
       /\ find_token "a1b2c3d4" lot' = Some issued_token
       /\ find_token "9f8e7d6c" lot' = Some second
       /\ expiresAt second = 2000 + day_ms.
Proof.
  split; [exact issued_db_ok|]. split; [exact issued_db_lot|].
  destruct (issuing_keeps_earlier_tokens later issued_db "LOT001" (Some V1) "LOT001" issued_lot
              issued_db_ok issued_db_lot) as (lot' & added & Hlot' & Htokens & Hfind & _ & Hnew).
  destruct (Hnew V1 eq_refl eq_refl eq_refl eq_refl (fun _ => eq_refl) eq_refl)
    as (second & -> & Hsecond & Hexpiry).
  exists lot', second. split; [exact Hlot'|]. split; [exact Htokens|].
  split; [exact (Hfind "a1b2c3d4" issued_token eq_refl)|].
  split; [exact Hsecond | exact Hexpiry].
Defined.



(** C8 (as the code has it).  For a track-worker or an inspector: when
    reason or description is absent or empty the request is answered
    MissingFields and nothing is created or appended.  Otherwise, when the
    reason and the priority are members of their closed vocabularies and
    the description is not blank (what the schema accepts), the lot exists,
    the generated identifier is not taken and no store call rejects, a new
    ReplacementRequest is created with status pending, the lot's id, the
    requester and the requester's role, and the lot's audit trail gains one
    entry tagged replacement_requested whose metadata carries the
    identifier of the new request. *)
Theorem replacement_request_creates_and_audits e s lotId body actor :
  role actor = track_worker \/ role actor = inspector ->
  let r := fst (run (replacement_request lotId body (Some actor)) e s) in
  let s' := snd (run (replacement_request lotId body (Some actor)) e s) in
  (truthy (b_reason body) = false \/ truthy (b_description body) = false ->
   r = MissingFields /\ s' = s)
  /\ (forall lot why what,
        store_ok s ->
        lots s !! toUpperCase lotId = Some lot ->
        b_reason body = Some why -> why ∈ reasons ->
        b_description body = Some what -> trim what <> "" ->
        default "medium" (b_priority body) ∈ priorities ->
        (forall k, throws e k = false) ->
        Forall (fun x => req_id x <> toUpperCase ("REQ" +:+ pretty (clock e 0%nat)))
               (requests s) ->
        code r = 201 /\ success r = true
        /\ exists created lot' entry,
             data r = RequestData created
             /\ requests s' = requests s ++ [created]
             /\ req_status created = RequestStatus.pending
             /\ req_lotId created = lot_id lot
             /\ requestedBy created = user_id actor
             /\ requestedByRole created = role actor
             /\ lots s' = <[toUpperCase lotId := lot']> (lots s)
             /\ auditTrail lot' = auditTrail lot ++ [entry]
             /\ action entry = "replacement_requested"
             /\ field "requestId" (metadata entry) = JStr (req_id created)).
Proof.
  intros Hrole r s'. subst r s'.
  assert (Hin : role actor ∈ requester_roles).
  { unfold requester_roles. rewrite !elem_of_cons. tauto. }
  split.
  - intros Hmissing.
    rewrite (replacement_request_missing e s lotId body actor Hin Hmissing). now split.
  - intros lot why what Hok Hlot Hwhy Hreason Hwhat Hdesc Hprio Hno Hfresh.
    destruct (replacement_request_creates e s lotId body actor lot why what
                Hok Hlot Hin Hwhy Hreason Hwhat Hdesc Hprio Hno Hfresh)
      as (created & lot' & -> & Hrequests & Hid & Hpending & Hlotid & Hby & Hbyrole & _ & _
          & Hlots & _ & Htrail).
    do 2 (split; [reflexivity|]). exists created, lot'. eexists.
    split; [reflexivity|]. split; [exact Hrequests|]. split; [exact Hpending|].
    split; [rewrite Hlotid; symmetry; exact (store_ok_lot _ _ _ Hok Hlot)|].
    split; [exact Hby|]. split; [exact Hbyrole|]. split; [exact Hlots|].
    split; [exact Htrail|]. split; [reflexivity|]. cbn. now rewrite Hid.
Qed.

(** C8, counterexample to the claim as stated: reason and description are
    both present, but the reason is not in the schema's vocabulary; the
    save of the request fails validation, the handler answers 500 and
    nothing is created or appended. *)
Lemma unlisted_reason_creates_nothing :
  role I1 = inspector
  /\ truthy (b_reason broken) = true
  /\ truthy (b_description broken) = true
  /\ fst (serve (replacement broken []) db)
     = fail 500 "Server error creating replacement request"
  /\ snd (serve (replacement broken []) db) = db.
Proof.
  repeat split; vm_compute; reflexivity.
Qed.

(** C8, witness: I1 reports LOT001 defective; I1 omits the description. *)
Lemma replacement_request_creates_and_audits_witness :
  (role I1 = track_worker \/ role I1 = inspector)
  /\ store_ok db
  /\ lots db !! toUpperCase "LOT001" = Some LOT001
  /\ code (fst (run (replacement_request "LOT001" cracked (Some I1)) (world 3000 []) db)) = 201
  /\ (fst (run (replacement_request "LOT001"
                  {| b_reason := Some "defective"; b_description := None;
                     r_photos := None; b_priority := None |} (Some I1)) (world 3000 []) db)
      = MissingFields).
Proof.
  assert (H1 : role I1 = track_worker \/ role I1 = inspector) by (right; reflexivity).
  assert (H2 : lots db !! toUpperCase "LOT001" = Some LOT001) by (vm_compute; reflexivity).
  split; [exact H1|]. split; [exact db_ok|]. split; [exact H2|]. split.
  - refine (proj1 (proj2 (replacement_request_creates_and_audits (world 3000 []) db "LOT001"
                            cracked I1 H1)
                     LOT001 "defective" "cracked" db_ok H2 eq_refl _ eq_refl _ _
                     (world_calm 3000) _)).
    + apply list_elem_of_here.
    + vm_compute. discriminate.
    + cbn. apply list_elem_of_further, list_elem_of_here.
    + constructor.
  - refine (proj1 (proj1 (replacement_request_creates_and_audits (world 3000 []) db "LOT001"
                            _ I1 H1) _)).
    right. reflexivity.
Defined.



(** C10.  In a successful status transition the entry mirrored into the
    acting user's history is built after the lot's status has been
    overwritten: its previousStatus is the new status, equal to its
    newStatus, whereas the lot's own status_updated entry records the prior
    status; the two disagree whenever the status really changes. *)
Theorem history_mirror_previous_status e s id body actor lot st u :
  store_ok s ->
  lots s !! toUpperCase id = Some lot ->
  users s !! user_id actor = Some u ->
  role actor = depot_staff ->
  b_status body = Some (LotStatus.name st) ->
  (forall k, throws e k = false) ->
  let s' := snd (run (put_status id body (Some actor)) e s) in
  exists lot' entry u' mirror,
    lots s' !! toUpperCase id = Some lot'
    /\ auditTrail lot' = auditTrail lot ++ [entry]
    /\ action entry = "status_updated"
    /\ users s' !! user_id actor = Some u'
    /\ history u' = history u ++ [mirror]
    /\ h_action mirror = "update_lot_status"
    /\ field "previousStatus" (h_metadata mirror) = JStr (LotStatus.name st)
    /\ field "newStatus" (h_metadata mirror) = JStr (LotStatus.name st)
    /\ field "previousStatus" (metadata entry) = JStr (LotStatus.name (status lot))
    /\ (status lot <> st ->
        field "previousStatus" (h_metadata mirror) <> field "previousStatus" (metadata entry)).
Proof.
  intros Hok Hlot Hu Hrole Hst Hno s'. subst s'.
  destruct (put_status_updates e s id body actor lot st Hok Hlot Hrole) as
    (lot' & _ & Hlots & _ & _ & Htrail & _ & Husers); [now rewrite Hst, parse_name | exact Hno |].
  rewrite Hu in Husers. destruct Husers as (u' & Husers & Hhistory).
  exists lot'. eexists. exists u'. eexists.
  split; [rewrite Hlots, lookup_insert_eq; reflexivity|]. split; [exact Htrail|].
  split; [reflexivity|]. split; [rewrite Husers, lookup_insert_eq; reflexivity|].
  split; [exact Hhistory|]. cbn. repeat split.
  intros Hchanged [= Heq]. apply name_inj in Heq. congruence.
Qed.

(** C10, witness: D1 accepts the pending LOT001. *)
Lemma history_mirror_previous_status_witness :
  store_ok db
  /\ lots db !! toUpperCase "LOT001" = Some LOT001
  /\ users db !! user_id D1 = Some D1
  /\ role D1 = depot_staff
  /\ b_status accept = Some (LotStatus.name LotStatus.accepted)
  /\ exists u' mirror,
       users (snd (run (put_status "LOT001" accept (Some D1)) (world 1000 []) db))
         !! user_id D1 = Some u'
       /\ history u' = history D1 ++ [mirror]
       /\ field "previousStatus" (h_metadata mirror) = JStr "accepted".
Proof.
  assert (H2 : lots db !! toUpperCase "LOT001" = Some LOT001) by (vm_compute; reflexivity).
  assert (H3 : users db !! user_id D1 = Some D1) by (vm_compute; reflexivity).
  split; [exact db_ok|]. split; [exact H2|]. split; [exact H3|].
  split; [reflexivity|]. split; [reflexivity|].
  destruct (history_mirror_previous_status (world 1000 []) db "LOT001" accept D1 LOT001
              LotStatus.accepted D1 db_ok H2 H3 eq_refl eq_refl (world_calm 1000))
    as (lot' & entry & u' & mirror & _ & _ & _ & Hu' & Hhistory & _ & Hprevious & _).
  exists u', mirror. split; [exact Hu'|]. split; [exact Hhistory | exact Hprevious].
Defined.

(** * Further properties of the code *)

(** ** Tactics and auxiliary facts *)

Ltac by_run :=
  lazymatch goal with
  | |- context [run ?h ?e ?s] =>
      pattern (fst (run h e s)), (snd (run h e s)); apply post_run
  end.

Ltac lot_case Hok k :=
  cbn [lots users put_user put_lot add_request requests lot_id
       set_lot_updatedAt set_status push_audit push_token];
  lazymatch goal with
  | |- context [<[lot_id ?l' := _]> _] =>
      key_of Hok;
      lazymatch goal with
      | |- context [<[?key := _]> _] =>
          destruct (decide (key = k)) as [<-|?];
          [ rewrite ?lookup_insert_eq | rewrite ?lookup_insert_ne by assumption ]
      end
  | |- _ => idtac
  end.

Lemma upper_ascii_idem (c : ascii) : upper_ascii (upper_ascii c) = upper_ascii c.
Proof. destruct c as [[] [] [] [] [] [] [] []]; reflexivity. Qed.

Lemma toUpperCase_idem (x : string) : toUpperCase (toUpperCase x) = toUpperCase x.
Proof.
  induction x as [|c x IH]; [reflexivity|]. cbn [toUpperCase].
  now rewrite upper_ascii_idem, IH.
Qed.

Lemma condition_nonempty (c : string) : c ∈ conditions -> c <> "".
Proof.
  unfold conditions. rewrite !elem_of_cons, elem_of_nil.
  intros H ->. repeat destruct H as [H|H]; done.
Qed.

Lemma existsb_fresh (id : string) (rs : list ReplacementRequest) :
  existsb (fun x => String.eqb (req_id x) id) rs = false -> id ∉ map req_id rs.
Proof.
  induction rs as [|x rs IH]; cbn; [intros _; apply not_elem_of_nil|].
  destruct (String.eqb_spec (req_id x) id) as [|Hne]; [discriminate|].
  cbn. intros H. rewrite elem_of_cons. intros [->|Hin]; [now apply Hne|].
  now apply IH.
Qed.

Lemma serve_requests_step (rq : Request) (s : Store) :
  store_ok s ->
  requests (snd (serve rq s)) = requests s
  \/ exists r actor,
       requests (snd (serve rq s)) = requests s ++ [r]
       /\ creates_request (operation rq) = true
       /\ sender rq = Some actor
       /\ (req_id r ∉ map req_id (requests s))
       /\ valid_request r = true
       /\ req_status r = RequestStatus.pending
       /\ requestedBy r = user_id actor
       /\ requestedByRole r = role actor
       /\ req_lotId r = target (operation rq)
       /\ is_Some (lots s !! target (operation rq)).
Proof.
  intros Hok. unfold serve. by_run.
  destruct (operation rq); cbn [handle creates_request target]; unfold_routes;
    post_exec; cbv zeta;
    cbn [lots users put_user put_lot add_request requests] in *;
    try (left; reflexivity).
  all: right; do 2 eexists; split; [reflexivity|]; split; [reflexivity|];
       split; [reflexivity|];
       cbn [req_id req_status requestedBy requestedByRole req_lotId];
       split; [apply existsb_fresh; assumption|];
       split; [assumption|]; key_of Hok; repeat split; eauto.
Qed.

Lemma requests_ok_snoc (s s' : Store) (r : ReplacementRequest) :
  requests_ok s ->
  requests s' = requests s ++ [r] ->
  req_id r ∉ map req_id (requests s) ->
  valid_request r = true ->
  requests_ok s'.
Proof.
  intros [Hnd Hval] Heq Hfresh Hv. unfold requests_ok. rewrite Heq. split.
  - rewrite map_app. apply NoDup_app. split; [exact Hnd|]. split.
    + cbn. intros x Hx Hin. apply list_elem_of_singleton in Hin as ->. now apply Hfresh.
    + apply NoDup_singleton.
  - apply Forall_app. split; [exact Hval|]. now apply Forall_singleton.
Qed.

Lemma is_Some_grows (s s' : Store) (k : string) :
  grows s s' -> is_Some (lots s !! k) -> is_Some (lots s' !! k).
Proof.
  intros Hg [l Hl]. destruct (Hg _ _ Hl) as (l' & Hl' & _). now exists l'.
Qed.

Lemma existsb_member (r : ReplacementRequest) (rs : list ReplacementRequest) :
  r ∈ rs -> existsb (fun x => String.eqb (req_id x) (req_id r)) rs = true.
Proof.
  intros Hin. apply existsb_exists. exists r. split.
  - now apply list_elem_of_In.
  - apply String.eqb_refl.
Qed.

Lemma replacement_request_duplicate e s lotId body actor lot r :
  role actor ∈ requester_roles ->
  truthy (b_reason body) = true ->
  truthy (b_description body) = true ->
  lots s !! toUpperCase lotId = Some lot ->
  r ∈ requests s ->
  req_id r = toUpperCase ("REQ" +:+ pretty (clock e 0%nat)) ->
  run (replacement_request lotId body (Some actor)) e s
  = (fail 500 "Server error creating replacement request", s).
Proof.
  intros Hrole Hreason Hdesc Hlot Hin Hid.
  rewrite (surjective_pairing (run _ _ _)). by_run.
  unfold replacement_request, authenticate, authorize.
  rewrite authorized by exact Hrole.
  unfold replacement_request_handler. rewrite Hreason, Hdesc. cbn [negb orb].
  post_exec; cbv zeta; try congruence; try reflexivity.
  all: cbn [req_id] in *; rewrite <- Hid in *;
       rewrite (existsb_member _ _ Hin) in *; discriminate.
Qed.

Lemma created_request_id e s lotId body req_user :
  success (fst (run (replacement_request lotId body req_user) e s)) = true ->
  exists r, r ∈ requests (snd (run (replacement_request lotId body req_user) e s))
            /\ req_id r = toUpperCase ("REQ" +:+ pretty (clock e 0%nat)).
Proof.
  by_run. unfold_routes. post_exec; cbv zeta; intros Hsuccess; try discriminate Hsuccess.
  all: eexists; cbn [requests put_user put_lot add_request]; split;
       [apply elem_of_app; right; apply list_elem_of_here | reflexivity].
Qed.

Lemma serve_trail_step (rq : Request) (s : Store) k l :
  store_ok s ->
  lots s !! k = Some l ->
  exists l', lots (snd (serve rq s)) !! k = Some l'
    /\ (length (auditTrail l) + (if aims_at k rq && success (fst (serve rq s)) then 1 else 0)
        <= length (auditTrail l')
        <= length (auditTrail l) + (if aims_at k rq then 1 else 0))%nat.
Proof.
  intros Hok. unfold serve, aims_at. by_run.
  destruct (operation rq); cbn [handle target mutating]; unfold_routes; post_exec; cbv zeta.
  all: lot_case Hok k; intros Hk.
  all: first
    [ exists l; split; [exact Hk|]
    | simplify_eq; eexists; split; [reflexivity|] ].
  all: cbn [success fail ok NotFound InvalidStatus InvalidCondition MissingFields NotOwner
            TokenNotFound TokenExpired andb auditTrail set_lot_updatedAt set_status
            push_audit push_token];
       rewrite ?andb_false_r, ?length_app; cbn [length];
       rewrite ?bool_decide_true by reflexivity;
       rewrite ?bool_decide_false by assumption;
       try (destruct (bool_decide _)); cbn [andb]; lia.
Qed.

Lemma post_exec_reply (h : IO Api.Reply) e s (P : Api.Reply -> Store -> Prop) :
  post h e {| store := s; reads := 0; awaits := 0 |} (fun o c =>
    match o with
    | Done r => P r (store c)
    | Thrown => P (Api.refuse 500 "unhandled rejection") (store c)
    end) ->
  P (fst (Api.exec h e s)) (snd (Api.exec h e s)).
Proof.
  unfold post, Api.exec. now destruct (h e _) as [[r|] c].
Qed.

Ltac by_exec :=
  lazymatch goal with
  | |- context [Api.exec ?h ?e ?s] =>
      pattern (fst (Api.exec h e s)), (snd (Api.exec h e s)); apply post_exec_reply
  end.

Ltac unfold_api :=
  unfold Api.lot_by_id, Api.lot_by_id_handler, Api.lot_by_qr,
         Api.get_user, Api.get_user_handler,
         Api.delete_user, Api.delete_user_handler,
         Api.authenticate, Api.authorize, Api.User_findByIdAndDelete.

Lemma post_exec_listing (h : IO Listing.Reply) e s (P : Listing.Reply -> Store -> Prop) :
  post h e {| store := s; reads := 0; awaits := 0 |} (fun o c =>
    match o with
    | Done r => P r (store c)
    | Thrown => P (Listing.refuse 500 "unhandled rejection") (store c)
    end) ->
  P (fst (Listing.exec h e s)) (snd (Listing.exec h e s)).
Proof.
  unfold post, Listing.exec. now destruct (h e _) as [[r|] c].
Qed.


Lemma ceil_div_spec (a b : Z) :
  0 < b -> (Listing.ceil_div a b - 1) * b < a <= Listing.ceil_div a b * b.
Proof.
  intros Hb. unfold Listing.ceil_div.
  pose proof (Z.div_mod (- a) b ltac:(lia)) as Hdm.
  pose proof (Z.mod_pos_bound (- a) b Hb) as Hmod. nia.
Qed.

Ltac by_listing :=
  lazymatch goal with
  | |- context [Listing.exec ?h ?e ?s] =>
      pattern (fst (Listing.exec h e s)), (snd (Listing.exec h e s));
      apply post_exec_listing
  end;
  unfold Listing.list_lots, Listing.list_lots_handler, Listing.Lot_find,
    Listing.Lot_countDocuments.

Lemma cleanup_spec join (files : list Upload.File) (disk : gset string) (p : string) :
  p ∈ Upload.cleanup join files disk
  <-> p ∈ disk /\ p ∉ map (fun f => join (Upload.destination f) (Upload.filename f)) files.
Proof.
  unfold Upload.cleanup. revert disk.
  induction files as [|f rest IH]; intros disk; cbn [fold_left map].
  - rewrite elem_of_nil. tauto.
  - rewrite IH, elem_of_cons. clear IH. cbv zeta. case_bool_decide as Hin.
    + rewrite elem_of_difference, elem_of_singleton. tauto.
    + split; [|tauto]. intros [Hp Hrest]. split; [exact Hp|].
      intros [-> | Hr]; [now apply Hin | now apply Hrest].
Qed.

Lemma first_invalid_none maxSize (files : list Upload.File) :
  Upload.first_invalid maxSize files = None
  <-> Forall (fun f => Upload.mimetype f ∈ Upload.allowedTypes /\ Upload.size f <= maxSize) files.
Proof.
  induction files as [|f rest IH]; cbn.
  - split; [constructor | reflexivity].
  - rewrite Forall_cons. case_bool_decide; cbn.
    + destruct (Z.gtb_spec (Upload.size f) maxSize).
      * split; [discriminate | intros [[_ ?] _]; lia].
      * rewrite IH. split; [intros; repeat split; auto; lia | tauto].
    + split; [discriminate | tauto].
Qed.

Lemma handler_accepts_iff join maxSize e req_files disk :
  Upload.usuccess (fst (Upload.inspection_photos join maxSize e req_files disk)) = true
  <-> exists files, req_files = Some files /\ files <> []
        /\ Forall (fun f => Upload.mimetype f ∈ Upload.allowedTypes
                            /\ Upload.size f <= maxSize) files.
Proof.
  unfold Upload.inspection_photos.
  destruct req_files as [[|f rest]|]; cbn [fst Upload.usuccess Upload.refuse].
  - split; [discriminate | intros (? & [= <-] & ? & _); contradiction].
  - destruct (Upload.first_invalid maxSize (f :: rest)) as [msg|] eqn:Hv;
      cbn [fst Upload.usuccess Upload.refuse].
    + split; [discriminate|]. intros (files & [= <-] & _ & Hall).
      apply first_invalid_none in Hall. congruence.
    + split; [|reflexivity]. intros _. exists (f :: rest).
      repeat split; [discriminate|]. now apply first_invalid_none.
  - split; [discriminate | intros (? & [=] & _)].
Qed.

Lemma office_ok : store_ok Office.registry.
Proof.
  split; intros k x Hk; cbn in Hk.
  - apply db_ok in Hk. exact Hk.
  - apply lookup_insert_Some in Hk as [[<- <-] | [_ Hk]]; [reflexivity|].
    apply db_ok in Hk. exact Hk.
Qed.

Lemma fine_unlisted (c : string) : c ∈ conditions -> b_condition Office.fine <> Some c.
Proof.
  unfold conditions. rewrite !elem_of_cons, elem_of_nil.
  intros H [= <-]. repeat destruct H as [H|H]; done.
Qed.

Lemma db_requests_ok : requests_ok db.
Proof. split; constructor. Qed.

(** ** The engine as a whole *)

(** X1.  Every route of the engine is closed to an authenticated sender
    whose role is not among the roles the route names: the answer is 403
    and the database is left as it was.  The administrator is no
    exception: every operation that writes refuses the admin role. *)
Theorem role_gate (rq : Request) (s : Store) (actor : User) :
  sender rq = Some actor ->
  (role actor ∉ permitted (operation rq) ->
   Forbidden (fst (serve rq s)) /\ snd (serve rq s) = s)
  /\ (role actor = admin -> mutating (operation rq) = true ->
      Forbidden (fst (serve rq s)) /\ snd (serve rq s) = s).
Proof.
  intros Hsender.
  assert (Hgate : role actor ∉ permitted (operation rq) ->
            Forbidden (fst (serve rq s)) /\ snd (serve rq s) = s).
  { intros Hrole. unfold serve. rewrite Hsender.
    destruct (operation rq); cbn [handle permitted] in *;
      try (apply authorize_denies; exact Hrole).
    exfalso. apply Hrole. rewrite !elem_of_cons. destruct (role actor); auto 10. }
  split; [exact Hgate|].
  intros Hrole Hmut. apply Hgate. rewrite Hrole.
  destruct (operation rq); cbn in *; [| discriminate | | | |];
    rewrite ?elem_of_cons, elem_of_nil; intros H;
    repeat (destruct H as [H|H]; [discriminate H|]); exact H.
Qed.

(** X1, witness: the administrator asks for the acceptance of LOT001. *)
Lemma role_gate_witness :
  Forbidden (fst (serve {| sender := Some Office.A1; operation := UpdateStatus "LOT001" accept;
                           env := world 1000 [] |} db))
  /\ snd (serve {| sender := Some Office.A1; operation := UpdateStatus "LOT001" accept;
                   env := world 1000 [] |} db) = db.
Proof.
  exact (proj2 (role_gate
           {| sender := Some Office.A1; operation := UpdateStatus "LOT001" accept;
              env := world 1000 [] |} db Office.A1 eq_refl) eq_refl eq_refl).
Defined.

(** X2.  Lot identifiers are case-insensitive in every operation of the
    engine: the operation on the upper-cased identifier is the same handler
    as the operation on the identifier as it was sent. *)
Theorem lot_ids_are_case_insensitive (op : Operation) (req_user : option User) :
  handle (with_lot_id toUpperCase op) req_user = handle op req_user.
Proof.
  destruct op; cbn [with_lot_id handle]; unfold_routes;
    now rewrite toUpperCase_idem.
Qed.

(** X3.  An operation on a lot that is not stored never succeeds and writes
    nothing.  When the lookup itself does not reject, the answer is one of
    400, 401, 403 and 404, and for a sender whose role the route admits it
    is 404, or 400 when the body is rejected before the lookup. *)
Theorem missing_lot_is_refused (rq : Request) (s : Store) :
  lots s !! target (operation rq) = None ->
  success (fst (serve rq s)) = false
  /\ snd (serve rq s) = s
  /\ (throws (env rq) 0 = false ->
      code (fst (serve rq s)) ∈ [400; 401; 403; 404]
      /\ forall actor, sender rq = Some actor -> role actor ∈ permitted (operation rq) ->
           code (fst (serve rq s)) = 404 \/ code (fst (serve rq s)) = 400).
Proof.
  intros Hnone. unfold serve. by_run.
  destruct (operation rq); cbn [handle target permitted] in *; unfold_routes;
    post_exec; cbv zeta; try congruence.
  all: cbn [success code fail ok NotFound InvalidStatus InvalidCondition MissingFields];
       (split; [reflexivity|]); (split; [reflexivity|]); intros Hcalm;
       try congruence.
  all: split; [rewrite !elem_of_cons; auto 10|].
  all: intros actor Hsender Hrole; try discriminate Hsender; auto.
  all: injection Hsender as <-;
       match goal with
       | H : negb (bool_decide _) = true |- _ =>
           rewrite authorized in H by exact Hrole; discriminate H
       end.
Qed.

(** X3, witness: D1 reads LOT999, which does not exist. *)
Lemma missing_lot_is_refused_witness :
  lots db !! toUpperCase "LOT999" = None
  /\ code (fst (serve {| sender := Some D1; operation := GetLot "LOT999" None;
                         env := world 1000 [] |} db)) = 404
  /\ snd (serve {| sender := Some D1; operation := GetLot "LOT999" None;
                   env := world 1000 [] |} db) = db.
Proof.
  assert (H1 : lots db !! toUpperCase "LOT999" = None) by (vm_compute; reflexivity).
  split; [exact H1|].
  destruct (missing_lot_is_refused
              {| sender := Some D1; operation := GetLot "LOT999" None; env := world 1000 [] |}
              db H1) as (_ & Hsame & Hcode).
  split; [|exact Hsame].
  destruct (proj2 (Hcode eq_refl) D1 eq_refl) as [H|H]; [| exact H | vm_compute in H; discriminate H].
  cbn [permitted operation role D1]. rewrite !elem_of_cons. auto.
Defined.

(** X4.  Whenever an operation other than the read answers with success, the
    addressed lot existed, it is the only lot written, and its audit trail
    has gained exactly one entry, which carries the action tag of the
    operation and the id and the full name of the sender. *)
Theorem success_appends_one_entry (rq : Request) (s : Store) :
  store_ok s ->
  mutating (operation rq) = true ->
  success (fst (serve rq s)) = true ->
  exists actor lot lot' entry,
    sender rq = Some actor
    /\ lots s !! target (operation rq) = Some lot
    /\ lots (snd (serve rq s)) = <[target (operation rq) := lot']> (lots s)
    /\ auditTrail lot' = auditTrail lot ++ [entry]
    /\ action entry = audit_tag (operation rq)
    /\ actorId entry = user_id actor
    /\ actorName entry = full_name actor.
Proof.
  intros Hok Hmut. unfold serve. by_run.
  destruct (operation rq); try discriminate Hmut; cbn [handle target audit_tag];
    unfold_routes; post_exec; cbv zeta; intros Hsuccess;
    try discriminate Hsuccess.
  all: do 4 eexists; split; [reflexivity|]; split; [reflexivity|];
       cbn [lots users put_user put_lot add_request requests lot_id set_lot_updatedAt
            set_status push_audit push_token auditTrail];
       key_of Hok; repeat split.
Qed.

(** X4, witness: D1 accepts LOT001. *)
Lemma success_appends_one_entry_witness :
  store_ok db
  /\ success (fst (serve (acceptance []) db)) = true
  /\ exists lot' entry,
       lots (snd (serve (acceptance []) db)) = <["LOT001" := lot']> (lots db)
       /\ auditTrail lot' = auditTrail LOT001 ++ [entry]
       /\ action entry = "status_updated"
       /\ actorId entry = "D1".
Proof.
  assert (Hs : success (fst (serve (acceptance []) db)) = true) by (vm_compute; reflexivity).
  split; [exact db_ok|]. split; [exact Hs|].
  destruct (success_appends_one_entry (acceptance []) db db_ok eq_refl Hs)
    as (actor & lot & lot' & entry & Hsender & Hlot & Hlots & Htrail & Htag & Hid & _).
  assert (H2 : lots db !! target (operation (acceptance [])) = Some LOT001)
    by (vm_compute; reflexivity).
  rewrite H2 in Hlot. injection Hlot as <-. injection Hsender as <-.
  exists lot', entry. split; [exact Hlots|]. split; [exact Htrail|].
  split; [exact Htag | exact Hid].
Defined.

(** X5.  No operation creates or deletes a lot, and whatever its outcome a
    stored lot keeps its id, vendor, lot number, descriptive fields, legacy
    qrCode and creation time.  A lot other than the addressed one is not
    touched at all; only a status update can change a status and only an
    issuance can change the token list. *)
Theorem lots_keep_identity (rq : Request) (s : Store) (k : string) :
  store_ok s ->
  (lots s !! k = None -> lots (snd (serve rq s)) !! k = None)
  /\ (forall l, lots s !! k = Some l ->
      exists l', lots (snd (serve rq s)) !! k = Some l'
        /\ same_identity l l'
        /\ (k <> target (operation rq) -> l' = l)
        /\ ((forall i b, operation rq <> UpdateStatus i b) -> status l' = status l)
        /\ ((forall i, operation rq <> GenerateQr i) -> qrTokens l' = qrTokens l)).
Proof.
  intros Hok. unfold serve. by_run.
  destruct (operation rq); cbn [handle target]; unfold_routes; post_exec; cbv zeta.
  all: lot_case Hok k.
  all: split; [intros Hk; congruence || exact Hk | intros l1 Hk].
  all: try (exists l1; unfold same_identity; repeat split; (exact Hk || reflexivity)).
  all: simplify_eq.
  all: eexists; split; [reflexivity|]; unfold same_identity;
       cbn [lot_id vendorId lotNumber partName factoryName supplyDate manufacturingDate
            warrantyPeriod qrCode lot_createdAt status qrTokens
            set_lot_updatedAt set_status push_audit push_token];
       repeat split; try congruence.
  all: let Hop := fresh "Hop" in intros Hop; exfalso; eapply Hop; reflexivity.
Qed.

(** X5, witness: the acceptance of LOT001 by D1. *)
Lemma lots_keep_identity_witness :
  store_ok db
  /\ exists l', lots (snd (serve (acceptance []) db)) !! "LOT001" = Some l'
       /\ same_identity LOT001 l' /\ qrTokens l' = qrTokens LOT001.
Proof.
  split; [exact db_ok|].
  destruct (proj2 (lots_keep_identity (acceptance []) db "LOT001" db_ok) LOT001 eq_refl)
    as (l' & Hl & Hsame & _ & _ & Htok).
  exists l'. split; [exact Hl|]. split; [exact Hsame|]. apply Htok. discriminate.
Defined.

(** X6.  An operation leaves the users collection as it was, or it answers
    with success and replaces exactly the stored document of the sender,
    keeping id, names and role and appending one history entry that names
    the operation and the lot it addressed. *)
Theorem only_sender_history_grows (rq : Request) (s : Store) :
  store_ok s ->
  users (snd (serve rq s)) = users s
  \/ exists actor u u' h,
       sender rq = Some actor
       /\ success (fst (serve rq s)) = true
       /\ users s !! user_id actor = Some u
       /\ users (snd (serve rq s)) = <[user_id actor := u']> (users s)
       /\ user_id u' = user_id u /\ firstName u' = firstName u
       /\ lastName u' = lastName u /\ role u' = role u
       /\ history u' = history u ++ [h]
       /\ h_action h = history_tag (operation rq)
       /\ targetType h = "lot"
       /\ targetId h = target (operation rq).
Proof.
  intros Hok. unfold serve. by_run.
  destruct (operation rq); cbn [handle target history_tag]; unfold_routes;
    post_exec; cbv zeta;
    cbn [lots users put_user put_lot add_request requests] in *;
    try (left; reflexivity).
  all: right; do 4 eexists; split; [reflexivity|];
       cbn [success ok user_id set_user_updatedAt push_history lot_id
            set_lot_updatedAt set_status push_audit push_token];
       match goal with
       | Hu : users _ !! _ = Some _ |- _ =>
           rewrite (store_ok_user _ _ _ Hok Hu); rewrite Hu
       end;
       key_of Hok; repeat split.
Qed.

(** X6, witness: the acceptance of LOT001 by D1. *)
Lemma only_sender_history_grows_witness :
  store_ok db
  /\ (users (snd (serve (acceptance []) db)) = users db
      \/ exists u' h, users (snd (serve (acceptance []) db)) = <["D1" := u']> (users db)
                      /\ history u' = history D1 ++ [h]
                      /\ h_action h = "update_lot_status").
Proof.
  split; [exact db_ok|].
  destruct (only_sender_history_grows (acceptance []) db db_ok)
    as [Hsame | (actor & u & u' & h & Hsender & _ & Hu & Husers & _ & _ & _ & _ & Hh & Htag & _)].
  - left. exact Hsame.
  - right. injection Hsender as <-.
    assert (H2 : users db !! user_id D1 = Some D1) by (vm_compute; reflexivity).
    rewrite H2 in Hu. injection Hu as <-.
    exists u', h. split; [exact Husers|]. split; [exact Hh | exact Htag].
Defined.

(** X7.  Over any sequence of requests the replacement-request collection
    only grows at its end, by at most one request per replacement-request
    operation; the ids stay pairwise distinct and every stored request
    passes the schema validation; each added request is pending and refers
    to a stored lot. *)
Theorem requests_only_grow (rqs : list Request) (s : Store) :
  store_ok s ->
  requests_ok s ->
  exists added,
    requests (serve_all rqs s) = requests s ++ added
    /\ requests_ok (serve_all rqs s)
    /\ Forall (fun r => req_status r = RequestStatus.pending
                       /\ is_Some (lots (serve_all rqs s) !! req_lotId r)) added
    /\ (length added <= length (filter (fun rq => creates_request (operation rq)) rqs))%nat.
Proof.
  revert s. induction rqs as [|rq rest IH]; intros s Hok Hreq; cbn [serve_all].
  - exists []. rewrite app_nil_r. repeat split; try apply Hreq; auto.
  - destruct (serve_grows rq s Hok) as [Hok1 _].
    destruct (serve_all_grows rest _ Hok1) as [_ Hg].
    destruct (serve_requests_step rq s Hok) as
      [Hsame | (r & actor & Hadd & Hop & _ & Hfresh & Hv & Hpending & _ & _ & Hlot & Hsome)].
    + assert (requests_ok (snd (serve rq s))) as Hreq1
        by (unfold requests_ok; rewrite Hsame; exact Hreq).
      destruct (IH _ Hok1 Hreq1) as (added & Heq & Hok2 & Hall & Hlen).
      exists added. rewrite Heq, Hsame. repeat split; try apply Hok2; auto.
      rewrite filter_cons. destruct (decide _); cbn; lia.
    + assert (requests_ok (snd (serve rq s))) as Hreq1
        by (eapply requests_ok_snoc; eauto).
      destruct (IH _ Hok1 Hreq1) as (added & Heq & Hok2 & Hall & Hlen).
      exists (r :: added). rewrite Heq, Hadd, <- app_assoc. cbn [app].
      repeat split; try apply Hok2.
      * constructor; [|exact Hall]. split; [exact Hpending|].
        rewrite Hlot. eapply is_Some_grows; [exact Hg|].
        destruct Hsome as [l Hl].
        destruct (proj2 (serve_grows rq s Hok) _ _ Hl) as (l' & Hl' & _). now exists l'.
      * rewrite filter_cons. rewrite decide_True by (rewrite Hop; exact I).
        cbn. lia.
Qed.

(** X7, witness: the workflow of the scenario, which asks for one replacement. *)
Lemma requests_only_grow_witness :
  store_ok db /\ requests_ok db
  /\ exists added, requests (serve_all workflow db) = requests db ++ added
                   /\ (length added <= 1)%nat.
Proof.
  split; [exact db_ok|]. split; [exact db_requests_ok|].
  destruct (requests_only_grow workflow db db_ok db_requests_ok)
    as (added & Heq & _ & _ & Hlen).
  exists added. split; [exact Heq | exact Hlen].
Defined.

(** X8.  Over any sequence of requests the audit trail of a lot gains at
    least one entry for every successful writing operation addressed to it
    and at most one entry for every writing operation addressed to it. *)
Theorem trail_growth_is_bounded (rqs : list Request) (s : Store) k l :
  store_ok s ->
  lots s !! k = Some l ->
  exists l', lots (serve_all rqs s) !! k = Some l'
    /\ (length (auditTrail l) + successes k rqs s
        <= length (auditTrail l')
        <= length (auditTrail l) + length (List.filter (aims_at k) rqs))%nat.
Proof.
  revert s l. induction rqs as [|rq rest IH]; intros s l Hok Hl; cbn [serve_all successes].
  - exists l. split; [exact Hl|]. cbn. lia.
  - destruct (serve_trail_step rq s k l Hok Hl) as (l1 & Hl1 & Hb1).
    destruct (serve_grows rq s Hok) as [Hok1 _].
    destruct (IH _ _ Hok1 Hl1) as (l2 & Hl2 & Hb2).
    exists l2. split; [exact Hl2|]. cbn [List.filter].
    destruct (aims_at k rq); cbn [andb length] in *; lia.
Qed.

(** X8, witness: the workflow of the scenario on LOT001. *)
Lemma trail_growth_is_bounded_witness :
  store_ok db
  /\ lots db !! "LOT001" = Some LOT001
  /\ exists l', lots (serve_all workflow db) !! "LOT001" = Some l'
       /\ (successes "LOT001" workflow db <= length (auditTrail l') <= 4)%nat.
Proof.
  assert (H2 : lots db !! "LOT001" = Some LOT001) by (vm_compute; reflexivity).
  split; [exact db_ok|]. split; [exact H2|].
  destruct (trail_growth_is_bounded workflow db "LOT001" LOT001 db_ok H2)
    as (l' & Hl & Hlow & Hhigh).
  exists l'. split; [exact Hl|]. split; [exact Hlow | exact Hhigh].
Defined.

(** ** Single routes of the engine *)

(** X9.  GET /:lotId without a token (absent or empty) falls back on the role
    check: a vendor who does not own the lot is answered 403 Access denied;
    the owner and every other role get the lot. *)
Theorem get_lot_without_token e s lotId tok actor lot :
  truthy tok = false ->
  lots s !! toUpperCase lotId = Some lot ->
  throws e 0%nat = false ->
  let r := fst (run (get_lot lotId tok (Some actor)) e s) in
  (role actor = vendor -> vendorId lot <> user_id actor -> r = fail 403 "Access denied")
  /\ (role actor <> vendor \/ vendorId lot = user_id actor ->
      r = ok 200 (LotData lot) "Lot retrieved successfully").
Proof.
  cbv zeta. intros Htok Hlot Hcalm. by_run.
  unfold get_lot, authenticate, get_lot_handler. rewrite Htok.
  post_exec; cbv zeta; try congruence; simplify_eq.
  - split; [reflexivity|]. intros [Hrole | Hown].
    + apply andb_true_iff in Heqb as [Hv _]. apply bool_decide_eq_true in Hv. contradiction.
    + apply andb_true_iff in Heqb as [_ Hv]. rewrite Hown, String.eqb_refl in Hv. discriminate.
  - split; [|reflexivity]. intros Hrole Hne.
    rewrite bool_decide_true in Heqb by exact Hrole. cbn in Heqb.
    destruct (String.eqb_spec (vendorId lot) (user_id actor)); [contradiction|discriminate].
Qed.

(** X9, witness: V2 and V1 read LOT001, which V1 owns. *)
Lemma get_lot_without_token_witness :
  truthy None = false
  /\ lots db !! toUpperCase "LOT001" = Some LOT001
  /\ fst (run (get_lot "LOT001" None (Some V2)) (world 1000 []) db) = fail 403 "Access denied"
  /\ fst (run (get_lot "LOT001" None (Some V1)) (world 1000 []) db)
     = ok 200 (LotData LOT001) "Lot retrieved successfully".
Proof.
  assert (H2 : lots db !! toUpperCase "LOT001" = Some LOT001) by (vm_compute; reflexivity).
  split; [reflexivity|]. split; [exact H2|]. split.
  - refine (proj1 (get_lot_without_token (world 1000 []) db "LOT001" None V2 LOT001
                     eq_refl H2 eq_refl) eq_refl _).
    discriminate.
  - exact (proj2 (get_lot_without_token (world 1000 []) db "LOT001" None V1 LOT001
                    eq_refl H2 eq_refl) (or_intror eq_refl)).
Defined.

(** X10.  An installation without a location or without a section (absent or
    empty) is answered 400 before the lot is looked up, and nothing is
    written. *)
Theorem install_requires_location_and_section e s lotId body actor :
  role actor = track_worker ->
  truthy (b_location body) = false \/ truthy (b_section body) = false ->
  run (install lotId body (Some actor)) e s
  = (fail 400 "Location and section are required", s).
Proof.
  intros Hrole Hmissing.
  unfold install, authenticate, authorize.
  rewrite authorized by (rewrite Hrole; apply list_elem_of_here).
  unfold install_handler.
  assert (negb (truthy (b_location body)) || negb (truthy (b_section body)) = true)
    as -> by (destruct Hmissing as [-> | ->]; [reflexivity | apply orb_true_r]).
  reflexivity.
Qed.

(** X10, witness: T1 sends an installation without a location. *)
Lemma install_requires_location_and_section_witness :
  role T1 = track_worker
  /\ truthy (b_location Office.nowhere) = false
  /\ run (install "LOT001" Office.nowhere (Some T1)) (world 2000 []) db
     = (fail 400 "Location and section are required", db).
Proof.
  split; [reflexivity|]. split; [reflexivity|].
  exact (install_requires_location_and_section (world 2000 []) db "LOT001" Office.nowhere T1
           eq_refl (or_introl eq_refl)).
Defined.

(** X11.  An installation by a track worker with a location and a section, on
    a stored lot and with no store call rejecting, answers 200 with the
    saved lot and appends one installation_recorded entry with the location,
    the section and the notes sent (undefined when none were sent), leaving
    status, tokens and requests as they were; the recorded installation
    date is the one sent, or the time of the request when none was sent. *)
Theorem install_records e s lotId body actor lot place track :
  store_ok s ->
  lots s !! toUpperCase lotId = Some lot ->
  role actor = track_worker ->
  b_location body = Some place -> place <> "" ->
  b_section body = Some track -> track <> "" ->
  (forall k, throws e k = false) ->
  let r := fst (run (install lotId body (Some actor)) e s) in
  let s' := snd (run (install lotId body (Some actor)) e s) in
  exists lot' entry,
    r = ok 200 (LotData lot') "Installation recorded successfully"
    /\ lots s' = <[toUpperCase lotId := lot']> (lots s)
    /\ requests s' = requests s
    /\ status lot' = status lot
    /\ qrTokens lot' = qrTokens lot
    /\ auditTrail lot' = auditTrail lot ++ [entry]
    /\ action entry = "installation_recorded"
    /\ actorId entry = user_id actor
    /\ timestamp entry = clock e 0
    /\ details entry = "Installation recorded at " +:+ place +:+ ", " +:+ track
    /\ field "location" (metadata entry) = JStr place
    /\ field "section" (metadata entry) = JStr track
    /\ (forall n, i_notes body = Some n -> field "notes" (metadata entry) = JStr n)
    /\ (i_notes body = None -> field "notes" (metadata entry) = JUndefined)
    /\ (forall d, b_installationDate body = Some d -> d <> "" ->
          field "installationDate" (metadata entry) = JStr d)
    /\ (b_installationDate body = None \/ b_installationDate body = Some "" ->
          field "installationDate" (metadata entry) = JStr (toISOString e (clock e 1))).
Proof.
  cbv zeta. intros Hok Hlot Hrole Hplace Hplace' Htrack Htrack' Hno. by_execution.
  unfold install, authenticate, authorize.
  rewrite authorized by (rewrite Hrole; apply list_elem_of_here).
  unfold install_handler. rewrite Hplace, Htrack, !truthy_Some by assumption.
  cbn [default from_option id negb orb].
  post_exec; cbv zeta; try no_fault Hno; simplify_eq.
  all: do 2 eexists;
       cbn [lots users put_user put_lot requests lot_id set_lot_updatedAt
            push_audit qrTokens auditTrail status];
       key_of Hok;
       do 12 (split; [reflexivity|]); cbn [field metadata String.eqb Ascii.eqb Bool.eqb];
       cbn.
  all: split; [intros n Hn; rewrite Hn; reflexivity|].
  all: split; [intros Hn; rewrite Hn; reflexivity|].
  all: split;
       [ intros d Hd Hd';
         match goal with H : truthy _ = _ |- _ => rewrite Hd in H end; rewrite ?Hd;
         first [reflexivity | rewrite truthy_Some in * by exact Hd'; discriminate]
       | intros [Hd | Hd];
         match goal with H : truthy _ = _ |- _ => rewrite Hd in H end; rewrite ?Hd;
         first [reflexivity | discriminate] ].
Qed.

(** X11, witness: T1 installs LOT001 at Section A without a date. *)
Lemma install_records_witness :
  store_ok db
  /\ lots db !! toUpperCase "LOT001" = Some LOT001
  /\ exists lot' entry,
       fst (run (install "LOT001" section_a (Some T1)) (world 2000 []) db)
       = ok 200 (LotData lot') "Installation recorded successfully"
       /\ auditTrail lot' = [entry]
       /\ field "notes" (metadata entry) = JUndefined
       /\ field "installationDate" (metadata entry) = JStr (pretty 2001).
Proof.
  assert (H2 : lots db !! toUpperCase "LOT001" = Some LOT001) by (vm_compute; reflexivity).
  split; [exact db_ok|]. split; [exact H2|].
  destruct (install_records (world 2000 []) db "LOT001" section_a T1 LOT001
              "Section A" "Track 1" db_ok H2 eq_refl eq_refl ltac:(discriminate)
              eq_refl ltac:(discriminate) (world_calm 2000))
    as (lot' & entry & Hr & _ & _ & _ & _ & Htrail & _ & _ & _ & _ & _ & _ & _ & Hnotes
        & _ & Hdate).
  exists lot', entry. split; [exact Hr|]. split; [exact Htrail|].
  split; [exact (Hnotes eq_refl) | exact (Hdate (or_introl eq_refl))].
Defined.

(** X12.  An inspection whose condition is absent or is not one of good, worn
    and replace is answered InvalidCondition (400) and nothing is written. *)
Theorem inspection_rejects_unknown_condition e s lotId body actor :
  role actor = inspector ->
  (forall c, c ∈ conditions -> b_condition body <> Some c) ->
  run (inspection lotId body (Some actor)) e s = (InvalidCondition, s).
Proof.
  intros Hrole Hout.
  unfold inspection, authenticate, authorize.
  rewrite authorized by (rewrite Hrole; apply list_elem_of_here).
  unfold inspection_handler.
  assert (negb (truthy (b_condition body))
          || negb (bool_decide (default "" (b_condition body) ∈ conditions)) = true) as ->;
    [|reflexivity].
  destruct (b_condition body) as [c|]; [|reflexivity]. cbn [default from_option id].
  rewrite bool_decide_false; [apply orb_true_r|]. intros Hin. now apply (Hout c Hin).
Qed.

(** X12, witness: I1 reports the condition fine. *)
Lemma inspection_rejects_unknown_condition_witness :
  role I1 = inspector
  /\ run (inspection "LOT001" Office.fine (Some I1)) (world 4000 []) db = (InvalidCondition, db).
Proof.
  split; [reflexivity|].
  exact (inspection_rejects_unknown_condition (world 4000 []) db "LOT001" Office.fine I1
           eq_refl fine_unlisted).
Defined.

(** X13.  An inspection by an inspector with a condition of the closed set, on
    a stored lot and with no store call rejecting, answers 200 with the
    saved lot and appends one inspection_recorded entry holding the
    condition, the notes, the photos and the next due date as they were
    sent (undefined, or no photos, for what was not sent) and the
    inspection date read from the clock; status, tokens and requests stay
    as they were. *)
Theorem inspection_records e s lotId body actor lot c :
  store_ok s ->
  lots s !! toUpperCase lotId = Some lot ->
  role actor = inspector ->
  b_condition body = Some c -> c ∈ conditions ->
  (forall k, throws e k = false) ->
  let r := fst (run (inspection lotId body (Some actor)) e s) in
  let s' := snd (run (inspection lotId body (Some actor)) e s) in
  exists lot' entry,
    r = ok 200 (LotData lot') "Inspection recorded successfully"
    /\ lots s' = <[toUpperCase lotId := lot']> (lots s)
    /\ requests s' = requests s
    /\ status lot' = status lot
    /\ qrTokens lot' = qrTokens lot
    /\ auditTrail lot' = auditTrail lot ++ [entry]
    /\ timestamp entry = clock e 0
    /\ actorId entry = user_id actor
    /\ actorName entry = full_name actor
    /\ action entry = "inspection_recorded"
    /\ details entry = "Inspection completed - condition: " +:+ c
    /\ field "condition" (metadata entry) = JStr c
    /\ field "inspectionDate" (metadata entry) = JStr (toISOString e (clock e 1))
    /\ (forall n, n_notes body = Some n -> field "notes" (metadata entry) = JStr n)
    /\ (n_notes body = None -> field "notes" (metadata entry) = JUndefined)
    /\ (forall ps, n_photos body = Some ps ->
          field "photos" (metadata entry) = JArr (map JStr ps))
    /\ (n_photos body = None -> field "photos" (metadata entry) = JArr [])
    /\ (forall d, b_nextInspectionDue body = Some d ->
          field "nextInspectionDue" (metadata entry) = JStr d)
    /\ (b_nextInspectionDue body = None ->
          field "nextInspectionDue" (metadata entry) = JUndefined).
Proof.
  cbv zeta. intros Hok Hlot Hrole Hc Hin Hno. by_execution.
  unfold inspection, authenticate, authorize.
  rewrite authorized by (rewrite Hrole; apply list_elem_of_here).
  unfold inspection_handler. rewrite Hc.
  rewrite truthy_Some by exact (condition_nonempty c Hin).
  cbn [default from_option id negb orb]. rewrite bool_decide_true by exact Hin.
  cbn [negb]. post_exec; cbv zeta; try no_fault Hno; simplify_eq.
  all: do 2 eexists;
       cbn [lots users put_user put_lot requests lot_id set_lot_updatedAt
            push_audit qrTokens auditTrail status];
       key_of Hok;
       do 13 (split; [reflexivity|]); cbn.
  all: split; [intros n Hn; rewrite Hn; reflexivity|].
  all: split; [intros Hn; rewrite Hn; reflexivity|].
  all: split; [intros n Hn; rewrite Hn; reflexivity|].
  all: split; [intros Hn; rewrite Hn; reflexivity|].
  all: split; [intros n Hn; rewrite Hn; reflexivity|].
  all: intros Hn; rewrite Hn; reflexivity.
Qed.

(** X13, witness: I1 reports LOT001 as worn, spelling the id in lower case. *)
Lemma inspection_records_witness :
  store_ok db
  /\ lots db !! toUpperCase "lot001" = Some LOT001
  /\ exists lot' entry,
       fst (run (inspection "lot001" Office.worn (Some I1)) (world 4000 []) db)
       = ok 200 (LotData lot') "Inspection recorded successfully"
       /\ auditTrail lot' = [entry]
       /\ field "notes" (metadata entry) = JStr "pad worn"
       /\ field "photos" (metadata entry) = JArr [].
Proof.
  assert (H2 : lots db !! toUpperCase "lot001" = Some LOT001) by (vm_compute; reflexivity).
  assert (Hin : "worn" ∈ conditions) by (unfold conditions; rewrite !elem_of_cons; auto).
  split; [exact db_ok|]. split; [exact H2|].
  destruct (inspection_records (world 4000 []) db "lot001" Office.worn I1 LOT001 "worn"
              db_ok H2 eq_refl eq_refl Hin (world_calm 4000))
    as (lot' & entry & Hr & _ & _ & _ & _ & Htrail & _ & _ & _ & _ & _ & _ & _ & Hnotes
        & _ & _ & Hphotos & _).
  exists lot', entry. split; [exact Hr|]. split; [exact Htrail|].
  split; [exact (Hnotes "pad worn" eq_refl) | exact (Hphotos eq_refl)].
Defined.

(** X14.  Request ids are REQ followed by the millisecond clock: after a
    replacement request has been created, a second one whose id is drawn at
    the same clock reading is answered 500 and leaves the database exactly
    as the first one left it, whoever sends it and whatever it asks. *)
Theorem same_instant_request_is_rejected e1 e2 s lotId1 body1 sender1 lotId2 body2 actor2 lot2 :
  let first := run (replacement_request lotId1 body1 sender1) e1 s in
  success (fst first) = true ->
  clock e2 0%nat = clock e1 0%nat ->
  role actor2 ∈ requester_roles ->
  truthy (b_reason body2) = true ->
  truthy (b_description body2) = true ->
  lots (snd first) !! toUpperCase lotId2 = Some lot2 ->
  run (replacement_request lotId2 body2 (Some actor2)) e2 (snd first)
  = (fail 500 "Server error creating replacement request", snd first).
Proof.
  cbv zeta. intros Hfirst Hclock Hrole Hreason Hdesc Hlot.
  destruct (created_request_id _ _ _ _ _ Hfirst) as (r & Hin & Hid).
  eapply replacement_request_duplicate; eauto. now rewrite Hclock.
Qed.

(** X14, witness: I1 and then T1 ask for a replacement of LOT001 at time 3000. *)
Lemma same_instant_request_is_rejected_witness :
  let first := run (replacement_request "LOT001" cracked (Some I1)) (world 3000 []) db in
  success (fst first) = true
  /\ run (replacement_request "LOT001" cracked (Some T1)) (world 3000 []) (snd first)
     = (fail 500 "Server error creating replacement request", snd first).
Proof.
  cbv zeta.
  assert (Hs : success (fst (run (replacement_request "LOT001" cracked (Some I1))
                               (world 3000 []) db)) = true) by (vm_compute; reflexivity).
  split; [exact Hs|].
  assert (exists lot2, lots (snd (run (replacement_request "LOT001" cracked (Some I1))
                                    (world 3000 []) db)) !! toUpperCase "LOT001" = Some lot2)
    as [lot2 Hlot] by (eexists; vm_compute; reflexivity).
  refine (same_instant_request_is_rejected (world 3000 []) (world 3000 []) db "LOT001" cracked
            (Some I1) "LOT001" cracked T1 lot2 Hs eq_refl _ eq_refl eq_refl Hlot).
  unfold requester_roles. apply list_elem_of_here.
Defined.

(** ** The lot and user routes *)

(** X15.  GET /api/lots/:id of the lot router decides as the token-less
    GET /:lotId of the ephemeral router does: same status code, same success
    flag, same lot in the answer, for every sender and every outcome; it
    writes nothing and its successful answer carries no message. *)
Theorem lot_by_id_agrees_with_get_lot e s id tok req_user :
  truthy tok = false ->
  let r := fst (run (get_lot id tok req_user) e s) in
  let r' := fst (Api.exec (Api.lot_by_id id req_user) e s) in
  Api.rcode r' = code r
  /\ Api.rsuccess r' = success r
  /\ Api.rdata r' = match data r with LotData l => Some (Api.LotDoc l) | _ => None end
  /\ snd (Api.exec (Api.lot_by_id id req_user) e s) = s
  /\ (Api.rsuccess r' = true -> Api.rmessage r' = None).
Proof.
  cbv zeta. intros Htok. by_exec. by_run.
  unfold_api. unfold get_lot, get_lot_handler, authenticate. rewrite Htok.
  post_exec; cbv beta; post_exec; cbv zeta; simplify_eq;
    repeat split; try congruence; try discriminate.
Qed.

(** X15, witness: V2 reads LOT001 through both routes. *)
Lemma lot_by_id_agrees_with_get_lot_witness :
  truthy None = false
  /\ Api.rcode (fst (Api.exec (Api.lot_by_id "LOT001" (Some V2)) (world 1000 []) db))
     = code (fst (run (get_lot "LOT001" None (Some V2)) (world 1000 []) db))
  /\ snd (Api.exec (Api.lot_by_id "LOT001" (Some V2)) (world 1000 []) db) = db.
Proof.
  split; [reflexivity|].
  destruct (lot_by_id_agrees_with_get_lot (world 1000 []) db "LOT001" None (Some V2) eq_refl)
    as (Hcode & _ & _ & Hsame & _).
  split; [exact Hcode | exact Hsame].
Defined.

(** X16.  GET /api/lots/qr/:id needs no sender and answers with the stored
    document whole: after the owner has issued a token, the answer holds the
    lot whose token list ends with that token, value and expiry
    included. *)
Theorem public_lookup_returns_issued_token ei e s lotId owner lot :
  store_ok s ->
  lots s !! toUpperCase lotId = Some lot ->
  role owner = vendor ->
  vendorId lot = user_id owner ->
  (forall k, throws ei k = false) ->
  throws e 0%nat = false ->
  let s1 := snd (run (generate_qr lotId (Some owner)) ei s) in
  exists lot1,
    Api.exec (Api.lot_by_qr lotId) e s1
    = ({| Api.rcode := 200; Api.rsuccess := true; Api.rmessage := None;
          Api.rdata := Some (Api.LotDoc lot1) |}, s1)
    /\ qrTokens lot1 =
         qrTokens lot ++ [{| token := String.substring 0 8 (uuidv4 ei);
                             generatedAt := clock ei 1;
                             expiresAt := clock ei 0 + day_ms;
                             generatedBy := user_id owner |}].
Proof.
  cbv zeta. intros Hok Hlot Hrole Hown Hno Hcalm.
  destruct (generate_qr_issues ei s lotId owner lot Hok Hlot Hrole Hown Hno)
    as (lot1 & _ & Hlots & _ & Htokens & _).
  exists lot1. split; [|exact Htokens].
  set (s1 := snd (run (generate_qr lotId (Some owner)) ei s)) in *.
  assert (lots s1 !! toUpperCase lotId = Some lot1) as Hl1
    by (rewrite Hlots; apply lookup_insert_eq).
  unfold Api.exec, Api.lot_by_qr, try_catch, bind, Lot_findOne, await, ret.
  cbn [store awaits reads]. rewrite Hcalm, Hl1. reflexivity.
Qed.

(** X16, witness: LOT001 after V1 has issued a1b2c3d4. *)
Lemma public_lookup_returns_issued_token_witness :
  store_ok db
  /\ lots db !! toUpperCase "LOT001" = Some LOT001
  /\ exists lot1,
       fst (Api.exec (Api.lot_by_qr "LOT001") later issued_db)
       = {| Api.rcode := 200; Api.rsuccess := true; Api.rmessage := None;
            Api.rdata := Some (Api.LotDoc lot1) |}
       /\ qrTokens lot1 = [issued_token].
Proof.
  assert (H2 : lots db !! toUpperCase "LOT001" = Some LOT001) by (vm_compute; reflexivity).
  split; [exact db_ok|]. split; [exact H2|].
  destruct (public_lookup_returns_issued_token (world 1000 []) later db "LOT001" V1 LOT001
              db_ok H2 eq_refl eq_refl (world_calm 1000) eq_refl)
    as (lot1 & Hr & Htokens).
  exists lot1. split; [exact (f_equal fst Hr) | exact Htokens].
Defined.

(** X17.  GET /api/users/:id writes nothing.  A sender who is not an
    administrator is answered 403 unless the id in the path is literally
    the sender's own id; an administrator, and a sender asking for the own
    id, get the document stored under the upper-cased id, or 404 (for an
    id of ASCII characters). *)
Theorem get_user_access e s id actor :
  throws e 0%nat = false ->
  let r := fst (Api.exec (Api.get_user id (Some actor)) e s) in
  snd (Api.exec (Api.get_user id (Some actor)) e s) = s
  /\ (role actor <> admin -> user_id actor <> id -> r = Api.refuse 403 "Access denied")
  /\ (role actor = admin \/ user_id actor = id ->
      ascii_only id = true ->
      r = match users s !! toUpperCase id with
          | Some u => {| Api.rcode := 200; Api.rsuccess := true;
                         Api.rmessage := Some "User retrieved successfully";
                         Api.rdata := Some (Api.UserDoc u) |}
          | None => Api.refuse 404 "User not found"
          end).
Proof.
  cbv zeta. intros Hcalm. by_exec. unfold_api.
  post_exec; try congruence; simplify_eq.
  all: split; [reflexivity|].
  all: apply andb_true_iff in Heqb || apply andb_false_iff in Heqb.
  all: rewrite ?negb_true_iff, ?negb_false_iff, ?bool_decide_eq_true,
         ?bool_decide_eq_false, ?String.eqb_eq, ?String.eqb_neq in Heqb.
  all: split; [intros ? ?|intros ? _]; try reflexivity; try tauto.
  all: rewrite ?Heqo; try reflexivity; tauto.
Qed.

(** X17, witness: V2 asks for V1; V1 asks for v1; the administrator asks
    for v1. *)
Lemma get_user_access_witness :
  throws (world 5000 []) 0%nat = false
  /\ ascii_only "v1" = true
  /\ fst (Api.exec (Api.get_user "V1" (Some V2)) (world 5000 []) db)
     = Api.refuse 403 "Access denied"
  /\ fst (Api.exec (Api.get_user "v1" (Some V1)) (world 5000 []) db)
     = Api.refuse 403 "Access denied"
  /\ fst (Api.exec (Api.get_user "v1" (Some Office.A1)) (world 5000 []) db)
     = {| Api.rcode := 200; Api.rsuccess := true;
          Api.rmessage := Some "User retrieved successfully";
          Api.rdata := Some (Api.UserDoc V1) |}.
Proof.
  split; [reflexivity|]. split; [reflexivity|]. split; [|split].
  - refine (proj1 (proj2 (get_user_access (world 5000 []) db "V1" V2 eq_refl)) _ _);
      discriminate.
  - refine (proj1 (proj2 (get_user_access (world 5000 []) db "v1" V1 eq_refl)) _ _);
      discriminate.
  - exact (proj2 (proj2 (get_user_access (world 5000 []) db "v1" Office.A1 eq_refl))
             (or_introl eq_refl) eq_refl).
Defined.

(** X18.  DELETE /api/users/:id by an administrator, with no store call
    rejecting, never touches lots or replacement requests; it answers 400
    and deletes nothing when the path id is the sender's own id; for
    another id, of ASCII characters, it answers 404 when no user is stored
    under the upper-cased id, and otherwise 200, removing exactly that
    user. *)
Theorem delete_user_removes_one_account e s id actor :
  role actor = admin ->
  (forall k, throws e k = false) ->
  let r := fst (Api.exec (Api.delete_user id (Some actor)) e s) in
  let s' := snd (Api.exec (Api.delete_user id (Some actor)) e s) in
  lots s' = lots s /\ requests s' = requests s
  /\ (user_id actor = id -> r = Api.refuse 400 "Cannot delete your own account" /\ s' = s)
  /\ (user_id actor <> id -> ascii_only id = true -> users s !! toUpperCase id = None ->
      r = Api.refuse 404 "User not found" /\ s' = s)
  /\ (forall u, user_id actor <> id -> ascii_only id = true ->
      users s !! toUpperCase id = Some u ->
      Api.rcode r = 200 /\ Api.rsuccess r = true
      /\ Api.rmessage r = Some "User deleted successfully"
      /\ users s' = delete (user_id u) (users s)).
Proof.
  cbv zeta. intros Hrole Hno. by_exec. unfold_api.
  rewrite authorized by (rewrite Hrole; apply list_elem_of_here).
  post_exec; try no_fault Hno; cbn [lots users requests]; simplify_eq.
  all: repeat split; try congruence.
  all: try (apply String.eqb_eq in Heqb; congruence).
  all: try (apply String.eqb_neq in Heqb; congruence).
Qed.

(** X18, witness: the administrator deletes v2, then tries ADM001. *)
Lemma delete_user_removes_one_account_witness :
  role Office.A1 = admin
  /\ ascii_only "v2" = true
  /\ Api.rsuccess (fst (Api.exec (Api.delete_user "v2" (Some Office.A1)) (world 5000 [])
                          Office.registry)) = true
  /\ users (snd (Api.exec (Api.delete_user "v2" (Some Office.A1)) (world 5000 [])
                   Office.registry))
     = delete "V2" (users Office.registry)
  /\ fst (Api.exec (Api.delete_user "ADM001" (Some Office.A1)) (world 5000 [])
            Office.registry)
     = Api.refuse 400 "Cannot delete your own account".
Proof.
  split; [reflexivity|]. split; [reflexivity|].
  assert (Hu : users Office.registry !! toUpperCase "v2" = Some V2) by (vm_compute; reflexivity).
  destruct (delete_user_removes_one_account (world 5000 []) Office.registry "v2" Office.A1
              eq_refl (world_calm 5000)) as (_ & _ & _ & _ & Hdel).
  destruct (Hdel V2 ltac:(discriminate) eq_refl Hu) as (_ & Hs & _ & Husers).
  split; [exact Hs|]. split; [exact Husers|].
  exact (proj1 (proj1 (proj2 (proj2 (delete_user_removes_one_account (world 5000 [])
                                       Office.registry "ADM001" Office.A1
                                       eq_refl (world_calm 5000)))) eq_refl)).
Defined.

(** X19.  The guard against deleting one's own account compares the path id as
    sent, whereas the lookup upper-cases it: an administrator who spells
    the own id differently (in lower case, say) passes the guard and the
    own account is deleted. *)
Theorem self_delete_guard_compares_raw_id e s id actor u :
  store_ok s ->
  role actor = admin ->
  users s !! user_id actor = Some u ->
  id <> user_id actor ->
  toUpperCase id = user_id actor ->
  (forall k, throws e k = false) ->
  let r := fst (Api.exec (Api.delete_user id (Some actor)) e s) in
  let s' := snd (Api.exec (Api.delete_user id (Some actor)) e s) in
  Api.rsuccess r = true /\ users s' !! user_id actor = None.
Proof.
  cbv zeta. intros Hok Hrole Hu Hne Hup Hno. by_exec. unfold_api.
  rewrite authorized by (rewrite Hrole; apply list_elem_of_here).
  post_exec; try no_fault Hno; cbn [lots users requests]; simplify_eq.
  - apply String.eqb_eq in Heqb. congruence.
  - split; [reflexivity|].
    rewrite Hup in *. simplify_eq.
    rewrite (store_ok_user _ _ _ Hok Hu). apply lookup_delete_eq.
  - rewrite Hup in *. congruence.
Qed.

(** X19, witness: ADM001 sends DELETE /api/users/adm001. *)
Lemma self_delete_guard_compares_raw_id_witness :
  store_ok Office.registry
  /\ users Office.registry !! user_id Office.A1 = Some Office.A1
  /\ "adm001" <> user_id Office.A1
  /\ toUpperCase "adm001" = user_id Office.A1
  /\ users (snd (Api.exec (Api.delete_user "adm001" (Some Office.A1)) (world 5000 [])
                   Office.registry)) !! "ADM001" = None.
Proof.
  assert (Hu : users Office.registry !! user_id Office.A1 = Some Office.A1)
    by (vm_compute; reflexivity).
  split; [exact office_ok|]. split; [exact Hu|].
  split; [discriminate|]. split; [reflexivity|].
  exact (proj2 (self_delete_guard_compares_raw_id (world 5000 []) Office.registry "adm001"
                  Office.A1 Office.A1 office_ok eq_refl Hu ltac:(discriminate) eq_refl
                  (world_calm 5000))).
Defined.



(** X21.  In every answer of GET /api/lots that carries a pagination, page and
    limit are at least 1: an absent, non-numeric or zero parameter gives
    page 1 and limit 20, a positive parameter is taken as it is; at most
    limit lots are listed, and pages is the least number of pages of that
    size that hold total lots. *)
Theorem list_lots_pagination sort q_page q_limit actor e s d :
  let r := fst (Listing.exec (Listing.list_lots sort q_page q_limit (Some actor)) e s) in
  Listing.ldata r = Some d ->
  let p := Listing.d_pagination d in
  1 <= Listing.page p /\ 1 <= Listing.limit p
  /\ (q_page = None \/ q_page = Some 0 -> Listing.page p = 1)
  /\ (q_limit = None \/ q_limit = Some 0 -> Listing.limit p = 20)
  /\ (forall n, q_page = Some n -> 1 <= n -> Listing.page p = n)
  /\ (forall n, q_limit = Some n -> 1 <= n -> Listing.limit p = n)
  /\ Z.of_nat (length (Listing.d_lots d)) <= Listing.limit p
  /\ 0 <= Listing.total p
  /\ (Listing.pages p - 1) * Listing.limit p < Listing.total p
       <= Listing.pages p * Listing.limit p.
Proof.
  cbv zeta. revert d. by_listing.
  post_exec; cbv zeta; cbn [Listing.ldata Listing.refuse];
    intros d [= <-];
    cbn [Listing.d_lots Listing.d_pagination Listing.page Listing.limit Listing.total
         Listing.pages].
  split; [lia|]. split; [lia|].
  split; [intros [-> | ->]; reflexivity|].
  split; [intros [-> | ->]; reflexivity|].
  split; [intros n -> Hn; cbn; destruct (Z.eqb_spec n 0); lia|].
  split; [intros n -> Hn; cbn; destruct (Z.eqb_spec n 0); lia|].
  split; [rewrite length_take; lia|].
  split; [lia|].
  apply ceil_div_spec; lia.
Qed.

(** X21, witness: page 0 and limit -5 are served as page 1 of size 1. *)
Lemma list_lots_pagination_witness :
  exists d,
    Listing.ldata (fst (Listing.exec (Listing.list_lots (fun l => l) (Some 0) (Some (-5))
                                        (Some D1)) (world 7000 []) db)) = Some d
    /\ Listing.d_pagination d
       = {| Listing.page := 1; Listing.limit := 1; Listing.total := 1; Listing.pages := 1 |}
    /\ Z.of_nat (length (Listing.d_lots d)) <= 1.
Proof.
  assert (exists d,
    Listing.ldata (fst (Listing.exec (Listing.list_lots (fun l => l) (Some 0) (Some (-5))
                                        (Some D1)) (world 7000 []) db)) = Some d
    /\ Listing.d_pagination d
       = {| Listing.page := 1; Listing.limit := 1; Listing.total := 1; Listing.pages := 1 |})
    as (d & Hd & Hp) by (eexists; split; vm_compute; reflexivity).
  exists d. split; [exact Hd|]. split; [exact Hp|].
  destruct (list_lots_pagination (fun l => l) (Some 0) (Some (-5)) D1 (world 7000 []) db d Hd)
    as (_ & _ & _ & _ & _ & _ & Hlen & _).
  rewrite Hp in Hlen. exact Hlen.
Defined.

(** ** Photo uploads *)

(** X22.  POST /api/upload/inspection-photos answers with success exactly
    when the sender is an inspector and the upload middleware, which admits
    at most five files, hands over between one and five files, each of one
    of the four allowed image types and of a size of at most the
    maximum. *)
Theorem upload_accepted_iff join maxSize e req_user parsed disk :
  (forall files, parsed = Upload.Passed (Some files) ->
                 Upload.within_limits maxSize files = true) ->
  (exists r, fst (Upload.route join maxSize e req_user parsed disk) = Some r
             /\ Upload.usuccess r = true)
  <-> (exists actor files,
         req_user = Some actor /\ role actor = inspector
         /\ parsed = Upload.Passed (Some files)
         /\ (1 <= length files <= 5)%nat
         /\ Forall (fun f => Upload.mimetype f ∈ Upload.allowedTypes
                             /\ Upload.size f <= maxSize) files).
Proof.
  intros Hlimits. unfold Upload.route. split.
  - intros (r & Hr & Hsuccess).
    destruct req_user as [actor|];
      [|cbn in Hr; injection Hr as <-; destruct (Bool.diff_false_true Hsuccess)].
    destruct (negb (bool_decide (role actor ∈ [inspector]))) eqn:Hrole;
      [cbn in Hr; injection Hr as <-; destruct (Bool.diff_false_true Hsuccess)|].
    apply negb_false_iff, bool_decide_eq_true, list_elem_of_singleton in Hrole.
    destruct parsed as [error | req_files].
    + cbn [fst] in Hr. unfold Upload.error_middleware in Hr. cbv zeta in Hr.
      repeat match type of Hr with
             | context [if ?b then _ else _] => destruct b
             | context [match Upload.multer_code ?x with _ => _ end] =>
                 destruct (Upload.multer_code x)
             end; try discriminate Hr; injection Hr as <-;
        destruct (Bool.diff_false_true Hsuccess).
    + cbn [fst] in Hr. injection Hr as <-.
      apply handler_accepts_iff in Hsuccess as (files & -> & Hne & Hall).
      exists actor, files. split; [reflexivity|]. split; [exact Hrole|].
      split; [reflexivity|]. split; [|exact Hall].
      pose proof (Hlimits files eq_refl) as Hl. unfold Upload.within_limits in Hl.
      apply andb_true_iff in Hl as [Hl _]. apply andb_true_iff in Hl as [Hl _].
      apply Nat.leb_le in Hl. destruct files; [contradiction|]. cbn [length] in *. lia.
  - intros (actor & files & -> & Hrole & -> & Hlen & Hall).
    rewrite Hrole. rewrite bool_decide_true by apply list_elem_of_here.
    cbn [negb fst]. eexists. split; [reflexivity|].
    apply handler_accepts_iff. exists files. split; [reflexivity|]. split; [|exact Hall].
    intros ->. cbn in Hlen. lia.
Qed.

(** X22, witness: I1 uploads one PNG of 2048 bytes. *)
Lemma upload_accepted_iff_witness :
  (forall files, Upload.Passed (Some [Office.photo]) = Upload.Passed (Some files) ->
                 Upload.within_limits 10485760 files = true)
  /\ exists r, fst (Upload.route Office.join 10485760 (world 6000 []) (Some I1)
                     (Upload.Passed (Some [Office.photo])) Office.disk) = Some r
               /\ Upload.usuccess r = true.
Proof.
  assert (Hl : forall files,
             Upload.Passed (Some [Office.photo]) = Upload.Passed (Some files) ->
             Upload.within_limits 10485760 files = true)
    by (intros files [= <-]; vm_compute; reflexivity).
  split; [exact Hl|].
  apply (proj2 (upload_accepted_iff Office.join 10485760 (world 6000 []) (Some I1)
                  (Upload.Passed (Some [Office.photo])) Office.disk Hl)).
  exists I1, [Office.photo]. split; [reflexivity|]. split; [reflexivity|].
  split; [reflexivity|]. split; [cbn; lia|].
  constructor; [|constructor]. split; [|vm_compute; discriminate].
  unfold Upload.allowedTypes. cbn [Upload.mimetype Office.photo].
  rewrite !elem_of_cons. auto.
Defined.

(** X23.  An accepted upload leaves the upload directory as it is.  A rejected
    one is answered 400 and every file of the request is removed, the valid
    ones included, while every other file stays. *)
Theorem rejected_upload_is_removed join maxSize e files disk :
  let r := fst (Upload.inspection_photos join maxSize e (Some files) disk) in
  let disk' := snd (Upload.inspection_photos join maxSize e (Some files) disk) in
  (Upload.usuccess r = true -> disk' = disk)
  /\ (Upload.usuccess r = false ->
      Upload.ucode r = 400
      /\ forall p, p ∈ disk' <->
           p ∈ disk /\ p ∉ map (fun f => join (Upload.destination f) (Upload.filename f)) files).
Proof.
  cbv zeta. unfold Upload.inspection_photos.
  destruct files as [|f rest]; cbn [fst snd Upload.usuccess Upload.refuse Upload.ucode].
  - split; [reflexivity|]. intros _. split; [reflexivity|]. intros p. cbn.
    rewrite elem_of_nil. tauto.
  - destruct (Upload.first_invalid maxSize (f :: rest)) as [msg|] eqn:Hv;
      cbn [fst snd Upload.usuccess Upload.refuse Upload.ucode].
    + split; [discriminate|]. intros _. split; [reflexivity|]. intros p.
      apply cleanup_spec.
    + split; [reflexivity | discriminate].
Qed.

(** X23, witness: a PNG sent together with a GIF. *)
Lemma rejected_upload_is_removed_witness :
  Upload.usuccess (fst (Upload.inspection_photos Office.join 10485760 (world 6000 [])
                          (Some [Office.photo; Office.animation]) Office.disk)) = false
  /\ ("uploads/inspections/a1-1000.png"
        ∉ snd (Upload.inspection_photos Office.join 10485760 (world 6000 [])
                 (Some [Office.photo; Office.animation]) Office.disk))
  /\ ("uploads/inspections/old.png"
        ∈ snd (Upload.inspection_photos Office.join 10485760 (world 6000 [])
                 (Some [Office.photo; Office.animation]) Office.disk)).
Proof.
  assert (Hf : Upload.usuccess (fst (Upload.inspection_photos Office.join 10485760
                 (world 6000 []) (Some [Office.photo; Office.animation]) Office.disk)) = false)
    by (vm_compute; reflexivity).
  split; [exact Hf|].
  destruct (proj2 (rejected_upload_is_removed Office.join 10485760 (world 6000 [])
                     [Office.photo; Office.animation] Office.disk) Hf) as [_ Hdisk].
  split.
  - intros Hin. apply Hdisk in Hin as [_ Hout]. apply Hout.
    apply list_elem_of_here.
  - apply Hdisk. split.
    + unfold Office.disk. rewrite !elem_of_union, !elem_of_singleton. auto.
    + cbn. rewrite !elem_of_cons, elem_of_nil. intros [H|[H|[]]]; discriminate H.
Defined.

(** ** Answers and schema validation *)

(** X24.  No rejection escapes a handler of the engine: whatever the sender,
    the database and the faults of the store, every operation ends with an
    answer.  Its status code is one of 200, 201, 400, 401, 403, 404 and 500,
    its success flag is set exactly for 200 and 201, and 201 is only given
    by the replacement-request route. *)
Theorem every_request_is_answered (op : Operation) (req_user : option User) (e : Env) (c : Ctx) :
  exists r c',
    handle op req_user e c = (Done r, c')
    /\ (success r = true <-> code r = 200 \/ code r = 201)
    /\ code r ∈ [200; 201; 400; 401; 403; 404; 500]
    /\ (code r = 201 -> creates_request op = true).
Proof.
  enough (post (handle op req_user) e c (fun o c' =>
            exists r, o = Done r
              /\ (success r = true <-> code r = 200 \/ code r = 201)
              /\ code r ∈ [200; 201; 400; 401; 403; 404; 500]
              /\ (code r = 201 -> creates_request op = true))) as Hpost.
  { unfold post in Hpost. destruct (handle op req_user e c) as [o c'].
    cbn [fst snd] in Hpost. destruct Hpost as (r & -> & H). now exists r, c'. }
  destruct op; cbn [handle creates_request]; unfold_routes; post_exec; cbv zeta.
  all: eexists; split; [reflexivity|]; cbn [success code fail ok NotFound InvalidStatus
         InvalidCondition MissingFields NotOwner TokenNotFound TokenExpired].
  all: split; [split; [intros; try discriminate; auto | intros [|]; try discriminate; auto]|].
  all: split; [rewrite !elem_of_cons; auto 10 | intros; try discriminate; auto].
Qed.

(** X24, witness: the acceptance of LOT001 while the save of the lot rejects. *)
Lemma every_request_is_answered_witness :
  exists r c',
    handle (UpdateStatus "LOT001" accept) (Some D1) (world 1000 [1%nat])
      {| store := db; reads := 0; awaits := 0 |} = (Done r, c')
    /\ code r ∈ [200; 201; 400; 401; 403; 404; 500].
Proof.
  destruct (every_request_is_answered (UpdateStatus "LOT001" accept) (Some D1)
              (world 1000 [1%nat]) {| store := db; reads := 0; awaits := 0 |})
    as (r & c' & Hrun & _ & Hcode & _).
  exists r, c'. split; [exact Hrun | exact Hcode].
Defined.

(** X25.  A replacement request that passes the check of the handler (reason
    and description not empty) but not the validation of the schema (a
    reason or a priority outside its vocabulary, or a description of white
    space only) is answered 500, not 400, and nothing is created or
    appended. *)
Theorem invalid_request_is_a_server_error e s lotId body actor lot why what :
  role actor ∈ requester_roles ->
  b_reason body = Some why -> why <> "" ->
  b_description body = Some what -> what <> "" ->
  lots s !! toUpperCase lotId = Some lot ->
  why ∉ reasons \/ trim what = "" \/ default "medium" (b_priority body) ∉ priorities ->
  run (replacement_request lotId body (Some actor)) e s
  = (fail 500 "Server error creating replacement request", s).
Proof.
  intros Hrole Hwhy Hwhy' Hwhat Hwhat' Hlot Hbad.
  rewrite (surjective_pairing (run _ _ _)). by_run.
  unfold replacement_request, authenticate, authorize.
  rewrite authorized by exact Hrole.
  unfold replacement_request_handler. rewrite Hwhy, Hwhat, !truthy_Some by assumption.
  cbn [negb orb default from_option id].
  post_exec; cbv zeta; try congruence; try reflexivity.
  all: exfalso;
       match goal with
       | Hv : valid_request _ = true |- _ =>
           unfold valid_request in Hv; cbn [requestedByRole reason description priority] in Hv;
           apply andb_true_iff in Hv as [Hv Hprio];
           apply andb_true_iff in Hv as [Hv Hdesc];
           apply andb_true_iff in Hv as [_ Hreason];
           apply bool_decide_eq_true in Hprio, Hreason;
           apply negb_true_iff, String.eqb_neq in Hdesc
       end;
       destruct Hbad as [Hb | [Hb | Hb]]; contradiction.
Qed.

(** X25, witness: T1 sends a description that is one no-break space. *)
Lemma invalid_request_is_a_server_error_witness :
  lots db !! toUpperCase "LOT001" = Some LOT001
  /\ Office.nbsp <> ""
  /\ trim Office.nbsp = ""
  /\ run (replacement_request "LOT001"
            {| b_reason := Some "worn"; b_description := Some Office.nbsp; r_photos := None;
               b_priority := None |} (Some T1)) (world 3000 []) db
     = (fail 500 "Server error creating replacement request", db).
Proof.
  assert (H2 : lots db !! toUpperCase "LOT001" = Some LOT001) by (vm_compute; reflexivity).
  assert (H3 : trim Office.nbsp = "") by (vm_compute; reflexivity).
  assert (H4 : Office.nbsp <> "") by (vm_compute; discriminate).
  split; [exact H2|]. split; [exact H4|]. split; [exact H3|].
  apply (invalid_request_is_a_server_error (world 3000 []) db "LOT001" _ T1 LOT001 "worn"
           Office.nbsp).
  - unfold requester_roles. apply list_elem_of_here.
  - reflexivity.
  - discriminate.
  - reflexivity.
  - exact H4.
  - exact H2.
  - right. left. exact H3.
Defined.
